(** * process_json_response.py: JSON:API export to flat CSV rows

    A shallow embedding of [src/process_json_response.py] and the properties
    of its two components, the reference index builder
    ([load_reference_tables]) and the row extractor
    ([extract_container_info]), together with the loop of
    [process_json_response] that writes the rows.

    Python values are the values [json.load] produces.  Dictionaries are
    finite maps, exceptions are an explicit error result, and the output
    file is a piece of state threaded through the writing loop.  JSON
    numbers are integers here; floating-point literals are left out of the
    value type. *)

From stdpp Require Import gmap strings list fin_maps.
From Stdlib Require Import ZArith.

Local Open Scope string_scope.

(** ** Values *)

(** What [json.load] returns: [None], [bool], [int], [str], [list], and
    [dict] with string keys. *)
#[warnings="-register-all"]
Inductive json : Type :=
  | JNull
  | JBool (b : bool)
  | JInt (z : Z)
  | JStr (s : string)
  | JArr (l : list json)
  | JObj (m : gmap string json).

(** Keys of a Python dict, up to Python's key equality: [True] and [1] are
    the same key, so are [False] and [0]. *)
Inductive pykey : Type :=
  | KNone
  | KInt (z : Z)
  | KStr (s : string).

#[global] Instance pykey_eq_dec : EqDecision pykey.
Proof. solve_decision. Defined.

#[global] Instance pykey_countable : Countable pykey.
Proof.
  refine (inj_countable'
    (fun k => match k with
              | KNone => inl () | KInt z => inr (inl z) | KStr s => inr (inr s)
              end)
    (fun x => match x with
              | inl _ => KNone | inr (inl z) => KInt z | inr (inr s) => KStr s
              end) _).
  by intros [].
Defined.

(** ** Exceptions *)

Inductive pyerr : Type :=
  | KeyError (k : pykey)
  | TypeError
  | IndexError
  | AttributeError
  | ValueError.

Inductive result (A : Type) : Type :=
  | Ok (a : A)
  | Raise (e : pyerr).
Arguments Ok {A} a.
Arguments Raise {A} e.

#[global] Instance result_ret : MRet result := fun A a => Ok a.
#[global] Instance result_bind : MBind result := fun A B f r =>
  match r with
  | Ok a => f a
  | Raise e => Raise e
  end.

Definition is_Ok {A} (r : result A) : Prop := exists a, r = Ok a.
Definition is_Raise {A} (r : result A) : Prop := exists e, r = Raise e.

(** ** Python primitives on JSON values *)

(** [hash(x)]: lists and dicts are unhashable. *)
Definition to_key (x : json) : result pykey :=
  match x with
  | JNull => Ok KNone
  | JBool b => Ok (KInt (Z.b2z b))
  | JInt z => Ok (KInt z)
  | JStr s => Ok (KStr s)
  | JArr _ | JObj _ => Raise TypeError
  end.

(** [d[i]] on a dict whose keys are strings. *)
Definition obj_getitem {V} (d : gmap string V) (i : json) : result V :=
  k ← to_key i;
  match k with
  | KStr s => match d !! s with
              | Some v => Ok v
              | None => Raise (KeyError k)
              end
  | _ => Raise (KeyError k)
  end.

(** [d[i]] on a dict with arbitrary hashable keys. *)
Definition dict_getitem {V} (d : gmap pykey V) (i : json) : result V :=
  k ← to_key i;
  match d !! k with
  | Some v => Ok v
  | None => Raise (KeyError k)
  end.

(** [operator.index]: ints and bools index a sequence. *)
Definition as_index (i : json) : option Z :=
  match i with
  | JInt z => Some z
  | JBool b => Some (Z.b2z b)
  | _ => None
  end.

(** [s[n]] on a sequence: negative indices count from the end. *)
Definition seq_getitem {A} (l : list A) (n : Z) : result A :=
  let n' := if (n <? 0)%Z then (n + Z.of_nat (length l))%Z else n in
  if (n' <? 0)%Z then Raise IndexError
  else match l !! Z.to_nat n' with
       | Some v => Ok v
       | None => Raise IndexError
       end.

Definition chars (s : string) : list json :=
  (fun c => JStr (String c EmptyString)) <$> String.list_ascii_of_string s.

(** [x[i]] *)
Definition py_subscr (x i : json) : result json :=
  match x with
  | JObj d => obj_getitem d i
  | JArr l => match as_index i with
              | Some n => seq_getitem l n
              | None => Raise TypeError
              end
  | JStr s => match as_index i with
              | Some n => seq_getitem (chars s) n
              | None => Raise TypeError
              end
  | JNull | JBool _ | JInt _ => Raise TypeError
  end.

(** [x[k1][k2]...[kn]], evaluated left to right. *)
Fixpoint subscr_path (x : json) (ks : list json) : result json :=
  match ks with
  | [] => Ok x
  | k :: ks' => y ← py_subscr x k; subscr_path y ks'
  end.

(** [x == 'literal'] *)
Definition py_eq_str (x : json) (s : string) : bool :=
  match x with
  | JStr t => bool_decide (t = s)
  | _ => false
  end.

(** [for v in x]: the items the loop visits.  A dict yields its keys; the
    order of a dict's keys is not recorded by [gmap]. *)
Definition py_iter (x : json) : result (list json) :=
  match x with
  | JArr l => Ok l
  | JStr s => Ok (chars s)
  | JObj d => Ok (JStr <$> (map_to_list d).*1)
  | JNull | JBool _ | JInt _ => Raise TypeError
  end.

(** [x.items()] *)
Definition py_items (x : json) : result (gmap string json) :=
  match x with
  | JObj d => Ok d
  | _ => Raise AttributeError
  end.

(** ** Constants *)

Definition CSV_HEADER : list string :=
  ["Chemical Name"; "CAS Number"; "Group Name"; "Location (space)";
   "Physical State"; "chemical_formula"; "Amount"; "Units";
   "Container ID"; "Manufacturer"; "Product Name"; "Product Number";
   "Date Received"; "Expiration Date"].

Definition PHYSICAL_STATES : gmap string string :=
  <["S" := "Solid"]> (<["L" := "Liquid"]> (<["G" := "Gas"]> ∅)).

(** ** The reference index *)

(** The dict literal returned by [load_reference_tables]: its three keys are
    fixed, each bound to a dict from record id to the kept attributes. *)
Record reference : Type := {
  chemdb_type : gmap pykey (gmap string json);
  space : gmap pykey (gmap string json);
  laboratory : gmap pykey (gmap string json);
}.

(** [{title: value for title, value in attributes.items() if title in fields}] *)
Definition keep_fields (fields : list string) (attributes : gmap string json)
  : gmap string json :=
  filter (fun kv : string * json => kv.1 ∈ fields) attributes.

(** One outer comprehension of [load_reference_tables],
    [{info['id']: {...} for info in included if info['type'] == kind}]:
    the condition first, then the key expression, then the value
    expression, then the store that hashes the key. *)
Fixpoint index_comprehension (kind : string) (fields : list string)
    (included : list json) (acc : gmap pykey (gmap string json))
  : result (gmap pykey (gmap string json)) :=
  match included with
  | [] => Ok acc
  | supplementary_info :: rest =>
      ty ← py_subscr supplementary_info (JStr "type");
      if py_eq_str ty kind then
        id ← py_subscr supplementary_info (JStr "id");
        attributes ← py_subscr supplementary_info (JStr "attributes");
        items ← py_items attributes;
        k ← to_key id;
        index_comprehension kind fields rest (<[k := keep_fields fields items]> acc)
      else index_comprehension kind fields rest acc
  end.

Definition chemdb_fields : list string :=
  ["field_chemdb_cas_number"; "field_chemdb_chemical_formula";
   "field_chemdb_physical_state"].

Definition load_reference_tables (data : json) : result reference :=
  c ← (inc ← py_subscr data (JStr "included"); l ← py_iter inc;
       index_comprehension "node--chemdb_type" chemdb_fields l ∅);
  s ← (inc ← py_subscr data (JStr "included"); l ← py_iter inc;
       index_comprehension "node--space" ["title"] l ∅);
  g ← (inc ← py_subscr data (JStr "included"); l ← py_iter inc;
       index_comprehension "node--laboratory" ["title"] l ∅);
  Ok {| chemdb_type := c; space := s; laboratory := g |}.

(** ** The row extractor *)

Definition extract_container_info (row_data : json) (reference : reference)
  : result (gmap string json) :=
  chemical_type_id ← subscr_path row_data
    [JStr "relationships"; JStr "field_chemical_type"; JStr "data"; JStr "id"];
  cas_number ← (t ← dict_getitem (chemdb_type reference) chemical_type_id;
                obj_getitem t (JStr "field_chemdb_cas_number"));
  physical_state ← (t ← dict_getitem (chemdb_type reference) chemical_type_id;
                    code ← obj_getitem t (JStr "field_chemdb_physical_state");
                    obj_getitem PHYSICAL_STATES code);
  chemical_formula ← (t ← dict_getitem (chemdb_type reference) chemical_type_id;
                      obj_getitem t (JStr "field_chemdb_chemical_formula"));
  chemical_space_id ← subscr_path row_data
    [JStr "relationships"; JStr "field_chemical_space"; JStr "data"; JStr "id"];
  location ← (t ← dict_getitem (space reference) chemical_space_id;
              obj_getitem t (JStr "title"));
  lab_id ← subscr_path row_data
    [JStr "relationships"; JStr "og_audience"; JStr "data"; JInt 0; JStr "id"];
  owner ← (t ← dict_getitem (laboratory reference) lab_id;
           obj_getitem t (JStr "title"));
  v1 ← subscr_path row_data [JStr "attributes"; JStr "field_chemical_product_name"];
  v7 ← subscr_path row_data [JStr "attributes"; JStr "field_chemical_amount"];
  v8 ← subscr_path row_data [JStr "attributes"; JStr "field_chemical_unit_of_measure"];
  v9 ← subscr_path row_data [JStr "attributes"; JStr "field_chemical_container_id"];
  v10 ← subscr_path row_data [JStr "attributes"; JStr "field_chemical_product_name"];
  v11 ← subscr_path row_data [JStr "attributes"; JStr "field_chemical_product_name"];
  v12 ← subscr_path row_data [JStr "attributes"; JStr "field_chemical_product_number"];
  v13 ← subscr_path row_data [JStr "attributes"; JStr "field_chemical_received"];
  v14 ← subscr_path row_data [JStr "attributes"; JStr "field_chemical_expiration"];
  Ok (<["Expiration Date" := v14]> (
      <["Date Received" := v13]> (
      <["Product Number" := v12]> (
      <["Product Name" := v11]> (
      <["Manufacturer" := v10]> (
      <["Container ID" := v9]> (
      <["Units" := v8]> (
      <["Amount" := v7]> (
      <["chemical_formula" := chemical_formula]> (
      <["Physical State" := JStr physical_state]> (
      <["Location (space)" := location]> (
      <["Group Name" := owner]> (
      <["CAS Number" := cas_number]> (
      <["Chemical Name" := v1]> ∅)))))))))))))).

(** ** Writing the CSV file *)

(** A line of the output file: its cells in column order.  How the csv
    module renders a cell as text is not modelled. *)
Definition csv_line : Type := list json.
Definition csv_file : Type := list csv_line.

Definition header_line : csv_line := JStr <$> CSV_HEADER.

(** [DictWriter.writerow] with the default [extrasaction='raise'] and
    [restval='']: a key outside the field names is a [ValueError], the
    cells are [rowdict.get(key, '')] for each field name in order. *)
Definition row_cells (rowdict : gmap string json) : csv_line :=
  (fun key => default (JStr "") (rowdict !! key)) <$> CSV_HEADER.

Definition writerow (rowdict : gmap string json) : result csv_line :=
  if bool_decide (map_Forall (fun k _ => k ∈ CSV_HEADER) rowdict)
  then Ok (row_cells rowdict)
  else Raise ValueError.

(** The body of [for container in json_data['data']], run on the file
    contents written so far. *)
Fixpoint write_rows (reference : reference) (containers : list json)
    (f_output : csv_file) : result unit * csv_file :=
  match containers with
  | [] => (Ok (), f_output)
  | container :: rest =>
      match extract_container_info container reference with
      | Raise e => (Raise e, f_output)
      | Ok row =>
          match writerow row with
          | Raise e => (Raise e, f_output)
          | Ok line => write_rows reference rest (f_output ++ [line])%list
          end
      end
  end.

(** [process_json_response] from the parsed document on.  The second
    component is the output file when the function is left: [old] when it
    was never opened, otherwise what was written before the [with] block
    closed it. *)
Definition process_json_response (json_data : json) (old : option csv_file)
  : result unit * option csv_file :=
  match load_reference_tables json_data with
  | Raise e => (Raise e, old)
  | Ok reference =>
      let f_output := [header_line] in
      match (d ← py_subscr json_data (JStr "data"); py_iter d) with
      | Raise e => (Raise e, Some f_output)
      | Ok containers =>
          let '(r, f) := write_rows reference containers f_output in
          (r, Some f)
      end
  end.

(** ** Vocabulary of the specification *)

(** The three relationship identifiers a container carries, as the row
    extractor reads them. *)
Definition chemical_type_id_of (row_data : json) : result json :=
  subscr_path row_data
    [JStr "relationships"; JStr "field_chemical_type"; JStr "data"; JStr "id"].

Definition chemical_space_id_of (row_data : json) : result json :=
  subscr_path row_data
    [JStr "relationships"; JStr "field_chemical_space"; JStr "data"; JStr "id"].

Definition audience_of (row_data : json) : result json :=
  subscr_path row_data [JStr "relationships"; JStr "og_audience"; JStr "data"].

Definition lab_id_of (row_data : json) : result json :=
  subscr_path row_data
    [JStr "relationships"; JStr "og_audience"; JStr "data"; JInt 0; JStr "id"].

Definition product_name_of (row_data : json) : result json :=
  subscr_path row_data [JStr "attributes"; JStr "field_chemical_product_name"].

(** The physical-state code the index holds for a container's chemical type. *)
Definition physical_state_code (row_data : json) (reference : reference)
  : result json :=
  id ← chemical_type_id_of row_data;
  t ← dict_getitem (chemdb_type reference) id;
  obj_getitem t (JStr "field_chemdb_physical_state").

(** A relationship identifier that cannot be resolved in a mapping: it is
    missing from the container, it is not hashable, or it is not a key. *)
Definition unresolved {V} (d : gmap pykey V) (id : result json) : Prop :=
  match id with
  | Raise _ => True
  | Ok i => match to_key i with
            | Raise _ => True
            | Ok k => d !! k = None
            end
  end.

(** The recognized kinds of auxiliary records. *)
Inductive kind : Type := ChemdbType | Space | Laboratory.

Definition kind_tag (k : kind) : string :=
  match k with
  | ChemdbType => "node--chemdb_type"
  | Space => "node--space"
  | Laboratory => "node--laboratory"
  end.

Definition kind_fields (k : kind) : list string :=
  match k with
  | ChemdbType => chemdb_fields
  | Space => ["title"]
  | Laboratory => ["title"]
  end.

Definition table (k : kind) (r : reference) : gmap pykey (gmap string json) :=
  match k with
  | ChemdbType => chemdb_type r
  | Space => space r
  | Laboratory => laboratory r
  end.

(** [j] is a record of kind [k] with identifier key [key] and attribute
    mapping [attrs]. *)
Definition record_of (k : kind) (key : pykey) (attrs : gmap string json)
    (j : json) : Prop :=
  py_subscr j (JStr "type") = Ok (JStr (kind_tag k)) /\
  (exists id, py_subscr j (JStr "id") = Ok id /\ to_key id = Ok key) /\
  py_subscr j (JStr "attributes") = Ok (JObj attrs).

(** An auxiliary record carries a kind tag; a record of a recognized kind
    also carries a hashable identifier and an attribute mapping. *)
Definition well_formed_record (j : json) : Prop :=
  exists ty, py_subscr j (JStr "type") = Ok ty /\
    forall k, ty = JStr (kind_tag k) -> exists key attrs, record_of k key attrs j.

(** What one record contributes to the comprehension for [kind]: a failure,
    nothing, or a binding.  This is the body of [index_comprehension]
    without the recursive call. *)
Definition record_entry (kind : string) (fields : list string) (j : json)
  : result (option (pykey * gmap string json)) :=
  ty ← py_subscr j (JStr "type");
  if py_eq_str ty kind then
    id ← py_subscr j (JStr "id");
    attributes ← py_subscr j (JStr "attributes");
    items ← py_items attributes;
    k ← to_key id;
    Ok (Some (k, keep_fields fields items))
  else Ok None.

Definition add_entry (acc : gmap pykey (gmap string json))
    (e : option (pykey * gmap string json)) : gmap pykey (gmap string json) :=
  match e with
  | Some (k, v) => <[k := v]> acc
  | None => acc
  end.

(** [entries] are the contributions of the records of [included], in order. *)
Definition entries_of (k : kind) (included : list json)
    (entries : list (option (pykey * gmap string json))) : Prop :=
  Forall2 (fun j e => record_entry (kind_tag k) (kind_fields k) j = Ok e)
    included entries.

(** The index with no entry. *)
Definition empty_reference : reference :=
  {| chemdb_type := ∅; space := ∅; laboratory := ∅ |}.

(** The auxiliary collection of a document, as the comprehensions visit it. *)
Definition included_of (data : json) : result (list json) :=
  inc ← py_subscr data (JStr "included"); py_iter inc.

(** The containers of a document, as the writing loop visits them. *)
Definition containers_of (json_data : json) : result (list json) :=
  d ← py_subscr json_data (JStr "data"); py_iter d.

(** The container [row_data] with its audience list replaced by [l]. *)
Definition with_audience (row_data : json) (l : list json) : json :=
  match row_data with
  | JObj m =>
      match m !! "relationships" with
      | Some (JObj rm) =>
          match rm !! "og_audience" with
          | Some (JObj am) =>
              JObj (<["relationships" :=
                       JObj (<["og_audience" :=
                                JObj (<["data" := JArr l]> am)]> rm)]> m)
          | _ => row_data
          end
      | _ => row_data
      end
  | _ => row_data
  end.

(** [row] is the row of container [c]. *)
Definition row_of (reference : reference) (c : json) (row : gmap string json)
  : Prop :=
  extract_container_info c reference = Ok row.

(** The output file holds no data row of this run: it was left as it was,
    or it holds the header alone. *)
Definition no_data_rows (old f : option csv_file) : Prop :=
  f = old \/ f = Some [header_line].

(** ** The scenario of the specification *)

(** A JSON object literal. *)
Definition obj (l : list (string * json)) : json := JObj (list_to_map l).

Definition chemdb_record (id cas state formula : string) : json :=
  obj [("type", JStr "node--chemdb_type"); ("id", JStr id);
       ("attributes", obj [("field_chemdb_cas_number", JStr cas);
                           ("field_chemdb_physical_state", JStr state);
                           ("field_chemdb_chemical_formula", JStr formula)])].

Definition titled_record (tag id title : string) : json :=
  obj [("type", JStr tag); ("id", JStr id);
       ("attributes", obj [("title", JStr title)])].

Definition scenario_included : list json :=
  [chemdb_record "T1" "123-45-6" "L" "H2O";
   titled_record "node--space" "S1" "Room 204";
   titled_record "node--laboratory" "G1" "Smith Lab"].

Definition container_record (type_id space_id : string) (audience : list json)
    (amount : json) : json :=
  obj [("attributes", obj [("field_chemical_product_name", JStr "Acetone");
                           ("field_chemical_amount", amount);
                           ("field_chemical_unit_of_measure", JStr "mL");
                           ("field_chemical_container_id", JStr "C-001");
                           ("field_chemical_product_number", JStr "P-99");
                           ("field_chemical_received", JStr "2023-01-01");
                           ("field_chemical_expiration", JStr "2025-01-01")]);
       ("relationships", obj [
          ("field_chemical_type", obj [("data", obj [("id", JStr type_id)])]);
          ("field_chemical_space", obj [("data", obj [("id", JStr space_id)])]);
          ("og_audience", obj [("data", JArr audience)])])].

Definition scenario_container (amount : json) : json :=
  container_record "T1" "S1" [obj [("id", JStr "G1")]] amount.

Definition document (containers included : list json) : json :=
  obj [("data", JArr containers); ("included", JArr included)].

Definition scenario_document (amount : json) : json :=
  document [scenario_container amount] scenario_included.

Definition scenario_cells (amount : json) : csv_line :=
  [JStr "Acetone"; JStr "123-45-6"; JStr "Smith Lab"; JStr "Room 204";
   JStr "Liquid"; JStr "H2O"; amount; JStr "mL"; JStr "C-001";
   JStr "Acetone"; JStr "Acetone"; JStr "P-99"; JStr "2023-01-01";
   JStr "2025-01-01"].

(** The index of the scenario, with [state] as the physical-state code. *)
Definition reference_with_state (state : string) : reference :=
  {| chemdb_type :=
       {[ KStr "T1" :=
            {[ "field_chemdb_cas_number" := JStr "123-45-6";
               "field_chemdb_physical_state" := JStr state;
               "field_chemdb_chemical_formula" := JStr "H2O" ]} ]};
     space := {[ KStr "S1" := {[ "title" := JStr "Room 204" ]} ]};
     laboratory := {[ KStr "G1" := {[ "title" := JStr "Smith Lab" ]} ]} |}.

Definition scenario_reference : reference := reference_with_state "L".

(** The document of the scenario followed by a container whose chemical
    type [T2] is not in the index. *)
Definition half_valid_document : json :=
  document [scenario_container (JInt 500);
            container_record "T2" "S1" [obj [("id", JStr "G1")]] (JInt 7)]
    scenario_included.

(** A record of a kind the builder does not index; it has a type tag and
    nothing else. *)
Definition foreign_record : json := obj [("type", JStr "user--user")].

(** Two chemical types under one identifier. *)
Definition duplicated_included : list json :=
  [chemdb_record "T1" "111-11-1" "S" "NaCl";
   titled_record "node--space" "T1" "Room 1";
   chemdb_record "T1" "123-45-6" "L" "H2O"].

(** A document with no auxiliary collection at all. *)
Definition document_without_included : json := obj [("data", JArr [])].

(** A container shared by two groups, the second of which is not in the
    index. *)
Definition shared_container : json :=
  container_record "T1" "S1"
    [obj [("id", JStr "G1")]; obj [("id", JStr "G9")]] (JInt 500).

(** ** Further vocabulary *)

(** The seven attributes of a container that the row reads. *)
Definition container_attributes : list string :=
  ["field_chemical_product_name"; "field_chemical_amount";
   "field_chemical_unit_of_measure"; "field_chemical_container_id";
   "field_chemical_product_number"; "field_chemical_received";
   "field_chemical_expiration"].

(** The columns filled from an attribute of the container alone, each with
    the attribute it is read from. *)
Definition direct_columns : list (string * string) :=
  [("Chemical Name", "field_chemical_product_name");
   ("Amount", "field_chemical_amount");
   ("Units", "field_chemical_unit_of_measure");
   ("Container ID", "field_chemical_container_id");
   ("Manufacturer", "field_chemical_product_name");
   ("Product Name", "field_chemical_product_name");
   ("Product Number", "field_chemical_product_number");
   ("Date Received", "field_chemical_received");
   ("Expiration Date", "field_chemical_expiration")].

(** Records of one kind that share an identifier carry the same attributes. *)
Definition consistent_ids (included : list json) : Prop :=
  forall k key j j' attrs attrs',
    j ∈ included -> j' ∈ included ->
    record_of k key attrs j -> record_of k key attrs' j' ->
    attrs = attrs'.

(** A record with an identifier and no type tag. *)
Definition untyped_record : json := obj [("id", JStr "Z1")].

(** A space record with no identifier. *)
Definition space_without_id : json :=
  obj [("type", JStr "node--space");
       ("attributes", obj [("title", JStr "Room 1")])].

(** * Properties *)

(** ** The error monad *)

Lemma bind_Ok {A B} (r : result A) (f : A -> result B) (b : B) :
  r ≫= f = Ok b <-> exists a, r = Ok a /\ f a = Ok b.
Proof.
  destruct r as [a|e]; simpl; split.
  - intros H. by exists a.
  - by intros (a' & [= ->] & H).
  - discriminate.
  - by intros (a' & [=] & _).
Qed.

Lemma bind_Raise {A B} (r : result A) (f : A -> result B) :
  is_Raise r -> is_Raise (r ≫= f).
Proof. intros [e ->]. by exists e. Qed.

Lemma is_Ok_not_Raise {A} (r : result A) : is_Ok r <-> ~ is_Raise r.
Proof.
  destruct r as [a|e]; split.
  - by intros _ [e [=]].
  - intros _. by exists a.
  - intros [a [=]].
  - intros H. destruct H. by exists e.
Qed.

(** Splits every successful sequence of binds among the hypotheses into its
    successful steps, and identifies the results of repeated steps. *)
Ltac bind_inv :=
  repeat match goal with
         | H : (_ ≫= _) = Ok _ |- _ =>
             let a := fresh "v" in
             let E := fresh "E" in
             apply bind_Ok in H as (a & E & H); cbv beta in H
         | H1 : ?r = Ok ?a, H2 : ?r = Ok ?b |- _ =>
             rewrite H1 in H2; injection H2 as <-
         | H : Ok _ = Ok _ |- _ => injection H as H
         end.

(** ** The row extractor *)

(** A row is written as its fourteen cells: no key of a row falls outside
    the header. *)
Lemma writerow_extracted row_data reference row :
  extract_container_info row_data reference = Ok row ->
  writerow row = Ok (row_cells row).
Proof.
  unfold extract_container_info. intros H. bind_inv.
  subst row. vm_compute. reflexivity.
Qed.

(** C1: in the scenario of the specification (one chemical type T1, one
    space S1, one laboratory G1, one container referring to them), the
    index built from the document is the expected one, the row extracted
    with it has the fourteen expected values under the fourteen column
    names, it is written as the expected cells in column order, and the
    whole run writes the header and that line.  The amount is the JSON
    value the document carries for it, whichever it is. *)
Theorem scenario_row (amount : json) :
  load_reference_tables (scenario_document amount) = Ok scenario_reference /\
  extract_container_info (scenario_container amount) scenario_reference
    = Ok (list_to_map (zip CSV_HEADER (scenario_cells amount))) /\
  writerow (list_to_map (zip CSV_HEADER (scenario_cells amount)))
    = Ok (scenario_cells amount) /\
  forall old,
    process_json_response (scenario_document amount) old
    = (Ok (), Some [header_line; scenario_cells amount]).
Proof.
  split; [|split; [|split]]; try intros old; vm_compute; reflexivity.
Qed.

(** C5: in every row the extractor produces, the Chemical Name, Manufacturer
    and Product Name columns hold one and the same value, the container's
    product-name attribute; so do the first, tenth and eleventh cells of the
    line written for the row. *)
Theorem name_columns_equal row_data reference row :
  extract_container_info row_data reference = Ok row ->
  exists v, product_name_of row_data = Ok v /\
    row !! "Chemical Name" = Some v /\
    row !! "Manufacturer" = Some v /\
    row !! "Product Name" = Some v /\
    row_cells row !! 0%nat = Some v /\
    row_cells row !! 9%nat = Some v /\
    row_cells row !! 10%nat = Some v.
Proof.
  unfold extract_container_info, product_name_of. intros H. bind_inv.
  subst row. eexists. split; [eassumption|].
  repeat split; vm_compute; reflexivity.
Qed.

Lemma name_columns_equal_witness :
  exists v,
    product_name_of (scenario_container (JInt 500)) = Ok v /\
    (list_to_map (zip CSV_HEADER (scenario_cells (JInt 500))) : gmap string json)
      !! "Chemical Name" = Some v /\
    (list_to_map (zip CSV_HEADER (scenario_cells (JInt 500))) : gmap string json)
      !! "Manufacturer" = Some v /\
    (list_to_map (zip CSV_HEADER (scenario_cells (JInt 500))) : gmap string json)
      !! "Product Name" = Some v.
Proof.
  destruct (name_columns_equal (scenario_container (JInt 500)) scenario_reference
              (list_to_map (zip CSV_HEADER (scenario_cells (JInt 500)))))
    as (v & Hv & H1 & H2 & H3 & _).
  - vm_compute. reflexivity.
  - exists v. repeat split; assumption.
Defined.

(** The fixed enumeration, read backwards. *)
Lemma PHYSICAL_STATES_inv code label :
  obj_getitem PHYSICAL_STATES code = Ok label ->
  (code = JStr "S" /\ label = "Solid") \/
  (code = JStr "L" /\ label = "Liquid") \/
  (code = JStr "G" /\ label = "Gas").
Proof.
  unfold obj_getitem.
  destruct code as [| b | z | s | l | m]; simpl; try discriminate.
  unfold PHYSICAL_STATES.
  destruct (decide (s = "S")) as [->|HS]; [vm_compute; intros [= <-]; auto|].
  destruct (decide (s = "L")) as [->|HL]; [vm_compute; intros [= <-]; auto|].
  destruct (decide (s = "G")) as [->|HG]; [vm_compute; intros [= <-]; auto|].
  rewrite !lookup_insert_ne, lookup_empty by congruence. discriminate.
Qed.

Lemma PHYSICAL_STATES_outside code :
  code <> JStr "S" -> code <> JStr "L" -> code <> JStr "G" ->
  is_Raise (obj_getitem PHYSICAL_STATES code).
Proof.
  intros HS HL HG.
  destruct (obj_getitem PHYSICAL_STATES code) as [label|e] eqn:E; [|by exists e].
  apply PHYSICAL_STATES_inv in E as [[-> _]|[[-> _]|[-> _]]]; congruence.
Qed.

(** C2: the mapping sends S, L and G to Solid, Liquid and Gas; any other
    code, of any JSON type, is a failed lookup in it; and for a container
    whose chemical type carries the code [code] in the index, a row is
    produced only with the label of [code] in its Physical State column,
    and no row is produced when [code] is none of S, L, G. *)
Theorem physical_state_mapping :
  (obj_getitem PHYSICAL_STATES (JStr "S") = Ok "Solid" /\
   obj_getitem PHYSICAL_STATES (JStr "L") = Ok "Liquid" /\
   obj_getitem PHYSICAL_STATES (JStr "G") = Ok "Gas") /\
  (forall code,
     code <> JStr "S" -> code <> JStr "L" -> code <> JStr "G" ->
     is_Raise (obj_getitem PHYSICAL_STATES code)) /\
  (forall row_data reference code,
     physical_state_code row_data reference = Ok code ->
     (forall row,
        extract_container_info row_data reference = Ok row ->
        exists label,
          obj_getitem PHYSICAL_STATES code = Ok label /\
          row !! "Physical State" = Some (JStr label)) /\
     (code <> JStr "S" -> code <> JStr "L" -> code <> JStr "G" ->
      is_Raise (extract_container_info row_data reference))).
Proof.
  split; [repeat split; vm_compute; reflexivity|].
  split; [exact PHYSICAL_STATES_outside|].
  intros row_data reference code Hcode.
  assert (Hrow : forall row,
            extract_container_info row_data reference = Ok row ->
            exists label,
              obj_getitem PHYSICAL_STATES code = Ok label /\
              row !! "Physical State" = Some (JStr label)).
  { intros row H.
    unfold physical_state_code, chemical_type_id_of in Hcode.
    unfold extract_container_info in H. bind_inv.
    subst row. eexists. split; [eassumption|]. vm_compute. reflexivity. }
  split; [exact Hrow|].
  intros HS HL HG.
  destruct (extract_container_info row_data reference) as [row|e] eqn:E;
    [|by exists e].
  destruct (Hrow row eq_refl) as (label & Hl & _).
  destruct (PHYSICAL_STATES_outside code HS HL HG) as [e He]. congruence.
Qed.

Lemma physical_state_mapping_witness :
  physical_state_code (scenario_container JNull) (reference_with_state "X")
    = Ok (JStr "X") /\
  is_Raise (extract_container_info (scenario_container JNull)
              (reference_with_state "X")).
Proof.
  split; [vm_compute; reflexivity|].
  apply (proj2 (proj2 (proj2 physical_state_mapping)
                  (scenario_container JNull) (reference_with_state "X")
                  (JStr "X") ltac:(vm_compute; reflexivity)));
    discriminate.
Defined.

(** A successful lookup resolves the identifier. *)
Lemma dict_getitem_resolved {V} (d : gmap pykey V) (i : json) (v : V) :
  dict_getitem d i = Ok v -> ~ unresolved d (Ok i).
Proof.
  unfold dict_getitem, unresolved. destruct (to_key i) as [k|e]; simpl.
  - destruct (d !! k); [discriminate 2 | discriminate 1].
  - discriminate.
Qed.

(** An unresolved identifier is a failed lookup. *)
Lemma unresolved_raises {V} (d : gmap pykey V) (id : result json) :
  unresolved d id -> is_Raise (i ← id; dict_getitem d i).
Proof.
  unfold dict_getitem, unresolved. destruct id as [i|e]; simpl; [|by exists e].
  destruct (to_key i) as [k|e]; simpl; [|by exists e].
  intros ->. by eexists.
Qed.

(** C3: a container whose chemical-type, space or first-audience identifier
    is missing, or is not a key of the corresponding mapping of the index,
    gets no row: the extractor returns an error, which carries no row and
    no default value. *)
Theorem missing_reference_fails row_data reference :
  unresolved (chemdb_type reference) (chemical_type_id_of row_data) \/
  unresolved (space reference) (chemical_space_id_of row_data) \/
  unresolved (laboratory reference) (lab_id_of row_data) ->
  is_Raise (extract_container_info row_data reference).
Proof.
  intros H.
  destruct (extract_container_info row_data reference) as [row|e] eqn:E;
    [exfalso|by exists e].
  unfold extract_container_info in E.
  unfold chemical_type_id_of, chemical_space_id_of, lab_id_of in H.
  bind_inv.
  repeat match goal with
         | H : dict_getitem _ _ = Ok _ |- _ => apply dict_getitem_resolved in H
         end.
  repeat match goal with
         | H : subscr_path _ _ = Ok _ |- _ => rewrite H in *
         end.
  tauto.
Qed.

Lemma missing_reference_fails_witness :
  unresolved (chemdb_type scenario_reference)
    (chemical_type_id_of
       (container_record "T2" "S1" [obj [("id", JStr "G1")]] JNull)) /\
  is_Raise (extract_container_info
              (container_record "T2" "S1" [obj [("id", JStr "G1")]] JNull)
              scenario_reference).
Proof.
  split; [vm_compute; reflexivity|].
  apply missing_reference_fails. left. vm_compute. reflexivity.
Defined.

(** ** The writing loop *)

Section write_rows.
Variable reference : reference.

Lemma write_rows_all containers rows f_output :
  Forall2 (row_of reference) containers rows ->
  write_rows reference containers f_output
  = (Ok (), (f_output ++ (row_cells <$> rows))%list).
Proof.
  intros H. revert f_output.
  induction H as [|c row cs rows Hc _ IH]; intros f_output; simpl.
  - by rewrite app_nil_r.
  - unfold row_of in Hc. rewrite Hc, (writerow_extracted _ _ _ Hc).
    rewrite IH, <- app_assoc. reflexivity.
Qed.

Lemma write_rows_fail pre c post rows e f_output :
  Forall2 (row_of reference) pre rows ->
  extract_container_info c reference = Raise e ->
  write_rows reference (pre ++ c :: post) f_output
  = (Raise e, (f_output ++ (row_cells <$> rows))%list).
Proof.
  intros H He. revert f_output.
  induction H as [|c' row cs rows Hc _ IH]; intros f_output; simpl.
  - by rewrite He, app_nil_r.
  - unfold row_of in Hc. rewrite Hc, (writerow_extracted _ _ _ Hc).
    rewrite IH, <- app_assoc. reflexivity.
Qed.

Lemma rows_exist containers :
  Forall (fun c => is_Ok (extract_container_info c reference)) containers ->
  exists rows, Forall2 (row_of reference) containers rows.
Proof.
  induction 1 as [|c cs [row Hc] _ [rows IH]].
  - exists []. constructor.
  - exists (row :: rows). by constructor.
Qed.
End write_rows.

Lemma process_json_response_unfold json_data old reference containers :
  load_reference_tables json_data = Ok reference ->
  containers_of json_data = Ok containers ->
  process_json_response json_data old
  = ((write_rows reference containers [header_line]).1,
     Some (write_rows reference containers [header_line]).2).
Proof.
  unfold process_json_response, containers_of. intros -> ->.
  by destruct (write_rows _ _ _).
Qed.

(** C4: for a document whose index builds and whose containers all extract,
    the run succeeds and the file holds the header followed by the lines of
    the rows of the containers, one per container and in the order of
    [data]; with no container it holds the header alone. *)
Theorem rows_follow_containers json_data reference containers old :
  load_reference_tables json_data = Ok reference ->
  containers_of json_data = Ok containers ->
  Forall (fun c => is_Ok (extract_container_info c reference)) containers ->
  exists rows,
    Forall2 (row_of reference) containers rows /\
    length rows = length containers /\
    process_json_response json_data old
    = (Ok (), Some (header_line :: (row_cells <$> rows))) /\
    (containers = [] ->
     process_json_response json_data old = (Ok (), Some [header_line])).
Proof.
  intros Hl Hc Hall. destruct (rows_exist _ _ Hall) as [rows Hrows].
  exists rows. split; [exact Hrows|].
  split; [symmetry; eapply Forall2_length; exact Hrows|].
  assert (Hrun : process_json_response json_data old
                 = (Ok (), Some (header_line :: (row_cells <$> rows)))).
  { rewrite (process_json_response_unfold _ _ _ _ Hl Hc).
    by rewrite (write_rows_all _ _ _ _ Hrows). }
  split; [exact Hrun|].
  intros ->. apply Forall2_nil_inv_l in Hrows. by subst rows.
Qed.

Lemma rows_follow_containers_witness :
  exists rows,
    Forall2 (row_of scenario_reference)
      [scenario_container (JInt 1); scenario_container (JInt 2)] rows /\
    length rows = 2%nat /\
    process_json_response
      (document [scenario_container (JInt 1); scenario_container (JInt 2)]
         scenario_included) None
    = (Ok (), Some (header_line :: (row_cells <$> rows))).
Proof.
  destruct (rows_follow_containers
              (document [scenario_container (JInt 1); scenario_container (JInt 2)]
                 scenario_included)
              scenario_reference
              [scenario_container (JInt 1); scenario_container (JInt 2)] None)
    as (rows & H1 & H2 & H3 & _).
  - vm_compute. reflexivity.
  - vm_compute. reflexivity.
  - repeat constructor; eexists; vm_compute; reflexivity.
  - exists rows. repeat split; assumption.
Defined.

(** C8, as stated, fails: the second container of [half_valid_document]
    has no row, the run fails on it, and the line of the first container
    is in the output file all the same. *)
Lemma partial_output_left :
  load_reference_tables half_valid_document = Ok scenario_reference /\
  is_Raise (extract_container_info
              (container_record "T2" "S1" [obj [("id", JStr "G1")]] (JInt 7))
              scenario_reference) /\
  process_json_response half_valid_document None
  = (Raise (KeyError (KStr "T2")),
     Some [header_line; scenario_cells (JInt 500)]) /\
  ~ no_data_rows None (Some [header_line; scenario_cells (JInt 500)]).
Proof.
  split; [vm_compute; reflexivity|].
  split; [eexists; vm_compute; reflexivity|].
  split; [vm_compute; reflexivity|].
  intros [H|H]; discriminate H.
Qed.

(** C8, amended: a run that fails while building the index leaves the file
    as it was; a run that cannot read the containers leaves the header
    alone; a run whose containers all extract writes the header and every
    line; and a run that fails on a container leaves the header and the
    lines of the containers before that one, and nothing after them. *)
Theorem run_outcome json_data old :
  (forall e,
     load_reference_tables json_data = Raise e ->
     process_json_response json_data old = (Raise e, old)) /\
  (forall reference e,
     load_reference_tables json_data = Ok reference ->
     containers_of json_data = Raise e ->
     process_json_response json_data old = (Raise e, Some [header_line])) /\
  (forall reference containers rows,
     load_reference_tables json_data = Ok reference ->
     containers_of json_data = Ok containers ->
     Forall2 (row_of reference) containers rows ->
     process_json_response json_data old
     = (Ok (), Some (header_line :: (row_cells <$> rows)))) /\
  (forall reference pre c post rows e,
     load_reference_tables json_data = Ok reference ->
     containers_of json_data = Ok (pre ++ c :: post)%list ->
     Forall2 (row_of reference) pre rows ->
     extract_container_info c reference = Raise e ->
     process_json_response json_data old
     = (Raise e, Some (header_line :: (row_cells <$> rows)))).
Proof.
  repeat split.
  - intros e He. unfold process_json_response. by rewrite He.
  - intros reference e Hl He. unfold process_json_response, containers_of in *.
    by rewrite Hl, He.
  - intros reference containers rows Hl Hc Hrows.
    rewrite (process_json_response_unfold _ _ _ _ Hl Hc).
    by rewrite (write_rows_all _ _ _ _ Hrows).
  - intros reference pre c post rows e Hl Hc Hrows He.
    rewrite (process_json_response_unfold _ _ _ _ Hl Hc).
    by rewrite (write_rows_fail _ _ _ _ _ _ _ Hrows He).
Qed.

Lemma run_outcome_witness :
  process_json_response half_valid_document None
  = (Raise (KeyError (KStr "T2")),
     Some (header_line ::
           (row_cells <$> [list_to_map (zip CSV_HEADER (scenario_cells (JInt 500)))]))).
Proof.
  apply (proj2 (proj2 (proj2 (run_outcome half_valid_document None)))
           scenario_reference
           [scenario_container (JInt 500)]
           (container_record "T2" "S1" [obj [("id", JStr "G1")]] (JInt 7))
           []).
  - vm_compute. reflexivity.
  - vm_compute. reflexivity.
  - constructor; [vm_compute; reflexivity | constructor].
  - vm_compute. reflexivity.
Defined.

(** ** The reference index builder *)

Lemma keep_fields_lookup fields attrs f :
  keep_fields fields attrs !! f
  = if decide (f ∈ fields) then attrs !! f else None.
Proof.
  unfold keep_fields. rewrite map_lookup_filter.
  destruct (attrs !! f) as [x|]; simpl.
  - destruct (decide (f ∈ fields)) as [Hin|Hout].
    + by rewrite option_guard_True.
    + by rewrite option_guard_False.
  - by destruct (decide (f ∈ fields)).
Qed.

Lemma index_comprehension_cons kind fields j rest acc :
  index_comprehension kind fields (j :: rest) acc
  = e ← record_entry kind fields j;
    index_comprehension kind fields rest (add_entry acc e).
Proof.
  unfold record_entry. simpl.
  destruct (py_subscr j (JStr "type")) as [ty|]; simpl; [|reflexivity].
  destruct (py_eq_str ty kind); simpl; [|reflexivity].
  destruct (py_subscr j (JStr "id")) as [id|]; simpl; [|reflexivity].
  destruct (py_subscr j (JStr "attributes")) as [a|]; simpl; [|reflexivity].
  destruct (py_items a) as [items|]; simpl; [|reflexivity].
  destruct (to_key id) as [k|]; reflexivity.
Qed.

Lemma index_comprehension_entries kind fields included entries acc :
  Forall2 (fun j e => record_entry kind fields j = Ok e) included entries ->
  index_comprehension kind fields included acc = Ok (foldl add_entry acc entries).
Proof.
  intros H. revert acc. induction H as [|j e js es Hj _ IH]; intros acc.
  - reflexivity.
  - rewrite index_comprehension_cons, Hj. simpl. apply IH.
Qed.

(** A failing record fails the comprehension. *)
Lemma index_comprehension_raises kind fields pre j post entries err acc :
  Forall2 (fun j e => record_entry kind fields j = Ok e) pre entries ->
  record_entry kind fields j = Raise err ->
  index_comprehension kind fields (pre ++ j :: post) acc = Raise err.
Proof.
  intros H Hj. revert acc. induction H as [|j' e js es Hj' _ IH]; intros acc.
  - simpl app. by rewrite index_comprehension_cons, Hj.
  - simpl app. rewrite index_comprehension_cons, Hj'. simpl. apply IH.
Qed.

(** The binding of a key after a run of insertions is the last one made. *)
Lemma foldl_add_entry_last entries acc pre key v post :
  entries = (pre ++ Some (key, v) :: post)%list ->
  (forall v', Some (key, v') ∉ post) ->
  foldl add_entry acc entries !! key = Some v.
Proof.
  intros -> Hpost. rewrite foldl_app. simpl.
  generalize (foldl add_entry acc pre). intros m.
  assert (Hm : <[key := v]> m !! key = Some v) by apply lookup_insert_eq.
  revert Hm. generalize (<[key := v]> m). clear m.
  induction post as [|e post IH]; intros m Hm; simpl; [exact Hm|].
  apply IH.
  - intros v' Hin. apply (Hpost v'). by right.
  - destruct e as [[k' v']|]; simpl; [|exact Hm].
    rewrite lookup_insert_ne; [exact Hm|].
    intros ->. apply (Hpost v'). by left.
Qed.

(** A binding comes from the initial map or from an insertion that no later
    insertion overwrote. *)
Lemma foldl_add_entry_Some entries acc key v :
  foldl add_entry acc entries !! key = Some v ->
  (acc !! key = Some v /\ forall v', Some (key, v') ∉ entries) \/
  exists pre post,
    entries = (pre ++ Some (key, v) :: post)%list /\
    forall v', Some (key, v') ∉ post.
Proof.
  revert acc. induction entries as [|e es IH]; intros acc H; simpl in H.
  - left. split; [exact H|]. intros v'. apply not_elem_of_nil.
  - destruct (IH _ H) as [[Hacc Hes]|(pre & post & -> & Hpost)].
    + destruct e as [[k' v']|]; simpl in Hacc.
      * destruct (decide (k' = key)) as [->|Hne].
        -- rewrite lookup_insert_eq in Hacc. injection Hacc as ->.
           right. exists [], es. split; [reflexivity|exact Hes].
        -- rewrite lookup_insert_ne in Hacc by exact Hne.
           left. split; [exact Hacc|].
           intros v'' Hin. apply elem_of_cons in Hin as [[= -> _]|Hin];
             [by apply Hne | by apply (Hes v'')].
      * left. split; [exact Hacc|].
        intros v'' Hin. apply elem_of_cons in Hin as [[=]|Hin].
        by apply (Hes v'').
    + right. exists (e :: pre), post. split; [reflexivity|exact Hpost].
Qed.

Lemma foldl_add_entry_is_Some entries acc key v :
  Some (key, v) ∈ entries -> is_Some (foldl add_entry acc entries !! key).
Proof.
  revert acc. induction entries as [|e es IH] using rev_ind; intros acc Hin.
  - by apply elem_of_nil in Hin.
  - rewrite foldl_snoc. apply elem_of_app in Hin as [Hin|Hin].
    + destruct e as [[k' v']|]; simpl; [|by apply IH].
      apply lookup_insert_is_Some'. right. by apply IH.
    + apply list_elem_of_singleton in Hin as <-. simpl.
      rewrite lookup_insert_eq. by eexists.
Qed.

Lemma py_eq_str_true x s : py_eq_str x s = true <-> x = JStr s.
Proof.
  destruct x; simpl; try (split; discriminate).
  rewrite bool_decide_eq_true. split; [by intros -> | by intros [= ->]].
Qed.

Lemma py_items_Ok x items : py_items x = Ok items <-> x = JObj items.
Proof.
  destruct x; simpl; try (split; discriminate).
  split; [by intros [= ->] | by intros [= ->]].
Qed.

(** A binding contributed by a record is that of a record of the kind. *)
Lemma record_entry_Some k j key v :
  record_entry (kind_tag k) (kind_fields k) j = Ok (Some (key, v)) ->
  exists attrs, record_of k key attrs j /\ v = keep_fields (kind_fields k) attrs.
Proof.
  unfold record_entry. intros H.
  apply bind_Ok in H as (ty & Hty & H).
  destruct (py_eq_str ty (kind_tag k)) eqn:Heq; [|discriminate H].
  apply py_eq_str_true in Heq as ->. bind_inv.
  subst key v.
  match goal with H : py_items _ = Ok _ |- _ => apply py_items_Ok in H as -> end.
  eexists. split; [|reflexivity]. unfold record_of. eauto 6.
Qed.

Lemma record_of_entry k j key attrs :
  record_of k key attrs j ->
  record_entry (kind_tag k) (kind_fields k) j
  = Ok (Some (key, keep_fields (kind_fields k) attrs)).
Proof.
  intros (Hty & (id & Hid & Hkey) & Hattrs). unfold record_entry.
  rewrite Hty. simpl. rewrite bool_decide_true by reflexivity.
  rewrite Hid. simpl. rewrite Hattrs. simpl. by rewrite Hkey.
Qed.

(** A well-formed record never fails a comprehension. *)
Lemma record_entry_well_formed k j :
  well_formed_record j ->
  is_Ok (record_entry (kind_tag k) (kind_fields k) j).
Proof.
  intros (ty & Hty & Hrec).
  destruct (py_eq_str ty (kind_tag k)) eqn:Heq.
  - apply py_eq_str_true in Heq.
    destruct (Hrec k Heq) as (key & attrs & Hof).
    eexists. by apply record_of_entry.
  - exists None. unfold record_entry. rewrite Hty. simpl. by rewrite Heq.
Qed.

Lemma well_formed_entries k included :
  Forall well_formed_record included ->
  exists entries, entries_of k included entries.
Proof.
  induction 1 as [|j js Hj _ [es IH]].
  - exists []. constructor.
  - destruct (record_entry_well_formed k j Hj) as [e He].
    exists (e :: es). by constructor.
Qed.

Lemma load_reference_tables_entries data included ec es el :
  included_of data = Ok included ->
  entries_of ChemdbType included ec ->
  entries_of Space included es ->
  entries_of Laboratory included el ->
  load_reference_tables data
  = Ok {| chemdb_type := foldl add_entry ∅ ec;
          space := foldl add_entry ∅ es;
          laboratory := foldl add_entry ∅ el |}.
Proof.
  unfold included_of, load_reference_tables, entries_of. intros Hinc Hc Hs Hl.
  apply bind_Ok in Hinc as (inc & H1 & H2).
  rewrite H1. simpl. rewrite H2. simpl.
  rewrite (index_comprehension_entries _ _ _ _ _ Hc). simpl.
  rewrite (index_comprehension_entries _ _ _ _ _ Hs). simpl.
  rewrite (index_comprehension_entries _ _ _ _ _ Hl). reflexivity.
Qed.

(** On well-formed records the builder succeeds, and each mapping is the
    run of insertions of the contributions of the records, in order. *)
Lemma load_well_formed data included :
  included_of data = Ok included ->
  Forall well_formed_record included ->
  exists reference,
    load_reference_tables data = Ok reference /\
    forall k, exists entries,
      entries_of k included entries /\
      table k reference = foldl add_entry ∅ entries.
Proof.
  intros Hinc Hwf.
  destruct (well_formed_entries ChemdbType _ Hwf) as [ec Hc].
  destruct (well_formed_entries Space _ Hwf) as [es Hs].
  destruct (well_formed_entries Laboratory _ Hwf) as [el Hl].
  eexists. split; [by apply (load_reference_tables_entries _ included)|].
  intros [| |]; eexists; (split; [eassumption|reflexivity]).
Qed.

(** A binding of a mapping is that of the last record of the kind with the
    key: no record after it has both the kind and the key. *)
Lemma table_lookup_latest k included entries key entry :
  entries_of k included entries ->
  foldl add_entry ∅ entries !! key = Some entry ->
  exists pre j post attrs,
    included = (pre ++ j :: post)%list /\
    record_of k key attrs j /\
    entry = keep_fields (kind_fields k) attrs /\
    forall j' attrs', j' ∈ post -> ~ record_of k key attrs' j'.
Proof.
  unfold entries_of. intros Hes Hlook.
  apply foldl_add_entry_Some in Hlook
    as [[Hemp _]|(epre & epost & -> & Hpost)];
    [by rewrite lookup_empty in Hemp|].
  apply Forall2_app_inv_r in Hes as (pre & rest & Hpre & Hrest & ->).
  apply Forall2_cons_inv_r in Hrest as (j & post & Hj & Hpost' & ->).
  apply record_entry_Some in Hj as (attrs & Hof & ->).
  exists pre, j, post, attrs.
  split; [reflexivity|]. split; [exact Hof|]. split; [reflexivity|].
  intros j' attrs' Hin Hof'.
  apply list_elem_of_lookup in Hin as [i Hi].
  destruct (Forall2_lookup_l _ _ _ _ _ Hpost' Hi) as (e & He & Hje).
  simpl in Hje. rewrite (record_of_entry _ _ _ _ Hof') in Hje.
  injection Hje as <-.
  apply (Hpost (keep_fields (kind_fields k) attrs')).
  by apply list_elem_of_lookup_2 in He.
Qed.

(** C6: on a collection of well-formed auxiliary records the builder
    succeeds, and for each of the three kinds the keys of its mapping are
    exactly the identifiers of the records of that kind in the collection;
    each entry comes from such a record and holds exactly the attributes
    of the record among the fields enumerated for the kind, nothing else.
    A record of another kind needs only a type tag, and binds no key. *)
Theorem index_contents data included :
  included_of data = Ok included ->
  Forall well_formed_record included ->
  exists reference,
    load_reference_tables data = Ok reference /\
    forall k key,
      (key ∈ dom (table k reference) <->
       exists j attrs, j ∈ included /\ record_of k key attrs j) /\
      (forall entry,
         table k reference !! key = Some entry ->
         exists j attrs,
           j ∈ included /\ record_of k key attrs j /\
           forall f, entry !! f
                     = if decide (f ∈ kind_fields k) then attrs !! f else None).
Proof.
  intros Hinc Hwf.
  destruct (load_well_formed _ _ Hinc Hwf) as (reference & Hload & Htab).
  exists reference. split; [exact Hload|].
  intros k key. destruct (Htab k) as (entries & Hes & ->).
  pose proof Hes as Hes'. unfold entries_of in Hes'.
  assert (Hentry : forall entry,
            foldl add_entry ∅ entries !! key = Some entry ->
            exists j attrs,
              j ∈ included /\ record_of k key attrs j /\
              forall f, entry !! f
                        = if decide (f ∈ kind_fields k) then attrs !! f else None).
  { intros entry Hlook.
    destruct (table_lookup_latest _ _ _ _ _ Hes Hlook)
      as (pre & j & post & attrs & -> & Hof & -> & _).
    exists j, attrs. split; [|split; [exact Hof|]].
    - apply elem_of_app. right. by left.
    - intros f. apply keep_fields_lookup. }
  split; [|exact Hentry].
  rewrite elem_of_dom. split.
  - intros [entry Hlook]. destruct (Hentry entry Hlook) as (j & attrs & ? & ? & _).
    by exists j, attrs.
  - intros (j & attrs & Hin & Hof).
    apply list_elem_of_lookup in Hin as [i Hi].
    destruct (Forall2_lookup_l _ _ _ _ _ Hes' Hi) as (e & He & Hje).
    simpl in Hje. rewrite (record_of_entry _ _ _ _ Hof) in Hje.
    injection Hje as <-.
    eapply foldl_add_entry_is_Some. by eapply list_elem_of_lookup_2.
Qed.

Lemma chemdb_record_well_formed id cas state formula :
  well_formed_record (chemdb_record id cas state formula).
Proof.
  exists (JStr "node--chemdb_type"). split; [vm_compute; reflexivity|].
  intros [| |] Heq; try discriminate Heq.
  exists (KStr id), {[ "field_chemdb_cas_number" := JStr cas;
                       "field_chemdb_physical_state" := JStr state;
                       "field_chemdb_chemical_formula" := JStr formula ]}.
  split; [vm_compute; reflexivity|].
  split; [exists (JStr id); split|]; vm_compute; reflexivity.
Qed.

Lemma titled_record_well_formed tag id title :
  well_formed_record (titled_record tag id title).
Proof.
  exists (JStr tag). split; [vm_compute; reflexivity|].
  intros k [= ->].
  exists (KStr id), {[ "title" := JStr title ]}.
  split; [vm_compute; reflexivity|].
  split; [exists (JStr id); split|]; vm_compute; reflexivity.
Qed.

Lemma foreign_record_well_formed : well_formed_record foreign_record.
Proof.
  exists (JStr "user--user"). split; [vm_compute; reflexivity|].
  intros [| |] Heq; discriminate Heq.
Qed.

Lemma index_contents_witness :
  exists reference,
    load_reference_tables
      (document [] (foreign_record :: scenario_included)) = Ok reference /\
    forall k key,
      (key ∈ dom (table k reference) <->
       exists j attrs,
         j ∈ foreign_record :: scenario_included /\ record_of k key attrs j) /\
      (forall entry,
         table k reference !! key = Some entry ->
         exists j attrs,
           j ∈ foreign_record :: scenario_included /\ record_of k key attrs j /\
           forall f, entry !! f
                     = if decide (f ∈ kind_fields k) then attrs !! f else None).
Proof.
  apply (index_contents (document [] (foreign_record :: scenario_included))
           (foreign_record :: scenario_included)).
  - vm_compute. reflexivity.
  - repeat constructor.
    + exact foreign_record_well_formed.
    + apply chemdb_record_well_formed.
    + apply titled_record_well_formed.
    + apply titled_record_well_formed.
Defined.

(** C10: when several records of one recognized kind share an identifier,
    the builder succeeds all the same and the mapping of the kind binds
    the identifier to the kept attributes of the last of them: of a record
    of the kind with that identifier that no later record of the collection
    matches in both kind and identifier. *)
Theorem latest_record_wins data included pre j post k key attrs :
  included_of data = Ok included ->
  Forall well_formed_record included ->
  included = (pre ++ j :: post)%list ->
  record_of k key attrs j ->
  (forall j' attrs', j' ∈ post -> ~ record_of k key attrs' j') ->
  exists reference,
    load_reference_tables data = Ok reference /\
    table k reference !! key = Some (keep_fields (kind_fields k) attrs).
Proof.
  intros Hinc Hwf -> Hof Hpost.
  destruct (load_well_formed _ _ Hinc Hwf) as (reference & Hload & Htab).
  exists reference. split; [exact Hload|].
  destruct (Htab k) as (entries & Hes & ->). unfold entries_of in Hes.
  apply Forall2_app_inv_l in Hes as (epre & erest & Hpre & Hrest & ->).
  apply Forall2_cons_inv_l in Hrest as (e & epost & Hj & Hpost' & ->).
  rewrite (record_of_entry _ _ _ _ Hof) in Hj. injection Hj as <-.
  eapply foldl_add_entry_last; [reflexivity|].
  intros v' Hin.
  apply list_elem_of_lookup in Hin as [i Hi].
  destruct (Forall2_lookup_r _ _ _ _ _ Hpost' Hi) as (j' & Hj' & He).
  simpl in He. apply record_entry_Some in He as (attrs' & Hof' & _).
  apply (Hpost j' attrs'); [|exact Hof'].
  by apply list_elem_of_lookup_2 in Hj'.
Qed.

Lemma latest_record_wins_witness :
  exists reference,
    load_reference_tables (document [] duplicated_included) = Ok reference /\
    chemdb_type reference !! KStr "T1"
    = Some (keep_fields chemdb_fields
              {[ "field_chemdb_cas_number" := JStr "123-45-6";
                 "field_chemdb_physical_state" := JStr "L";
                 "field_chemdb_chemical_formula" := JStr "H2O" ]}).
Proof.
  apply (latest_record_wins (document [] duplicated_included)
           duplicated_included
           [chemdb_record "T1" "111-11-1" "S" "NaCl";
            titled_record "node--space" "T1" "Room 1"]
           (chemdb_record "T1" "123-45-6" "L" "H2O") [] ChemdbType).
  - vm_compute. reflexivity.
  - repeat constructor.
    + apply chemdb_record_well_formed.
    + apply titled_record_well_formed.
    + apply chemdb_record_well_formed.
  - reflexivity.
  - split; [vm_compute; reflexivity|].
    split; [exists (JStr "T1"); split|]; vm_compute; reflexivity.
  - intros j' attrs' Hin. by apply elem_of_nil in Hin.
Defined.

(** C7, as stated, fails: a document without the auxiliary collection makes
    the builder fail with a key error instead of yielding empty mappings. *)
Lemma missing_included_raises :
  load_reference_tables document_without_included
  = Raise (KeyError (KStr "included")) /\
  ~ is_Ok (load_reference_tables document_without_included).
Proof.
  split; [vm_compute; reflexivity|].
  intros [reference H]. vm_compute in H. discriminate H.
Qed.

(** C7, amended: the builder yields three empty mappings when the auxiliary
    collection is present and empty, and succeeds whenever the collection
    is present and its records are well formed; on a document that lacks
    the collection it fails with a key error for [included]. *)
Theorem empty_or_missing_included data :
  (included_of data = Ok [] ->
   load_reference_tables data = Ok empty_reference) /\
  (forall included,
     included_of data = Ok included ->
     Forall well_formed_record included ->
     is_Ok (load_reference_tables data)) /\
  (forall d,
     data = JObj d -> d !! "included" = None ->
     load_reference_tables data = Raise (KeyError (KStr "included"))).
Proof.
  split; [|split].
  - intros H.
    apply (load_reference_tables_entries data [] [] [] []); [exact H|..];
      constructor.
  - intros included Hinc Hwf.
    destruct (load_well_formed _ _ Hinc Hwf) as (reference & Hload & _).
    by exists reference.
  - intros d -> Hd. unfold load_reference_tables. simpl.
    unfold obj_getitem. simpl. by rewrite Hd.
Qed.

Lemma empty_or_missing_included_witness :
  load_reference_tables (document [scenario_container JNull] [])
  = Ok empty_reference /\
  load_reference_tables document_without_included
  = Raise (KeyError (KStr "included")).
Proof.
  split.
  - apply (proj1 (empty_or_missing_included
                    (document [scenario_container JNull] []))).
    vm_compute. reflexivity.
  - apply (proj2 (proj2 (empty_or_missing_included document_without_included))
             (list_to_map [("data", JArr [])])).
    + reflexivity.
    + vm_compute. reflexivity.
Defined.

(** ** The first audience entry *)

Lemma subscr_path_cons_obj m s ks :
  subscr_path (JObj m) (JStr s :: ks)
  = match m !! s with
    | Some v => subscr_path v ks
    | None => Raise (KeyError (KStr s))
    end.
Proof. simpl. unfold obj_getitem. simpl. by destruct (m !! s). Qed.

(** Only a dict can be subscripted by a string. *)
Lemma subscr_path_str_Ok x s ks v :
  subscr_path x (JStr s :: ks) = Ok v ->
  exists m y, x = JObj m /\ m !! s = Some y /\ subscr_path y ks = Ok v.
Proof.
  destruct x as [| b | z | t | l | m]; try discriminate.
  rewrite subscr_path_cons_obj. destruct (m !! s) as [y|] eqn:E; [|discriminate].
  intros H. by exists m, y.
Qed.

Lemma subscr_path_app x ks ks' :
  subscr_path x (ks ++ ks') = y ← subscr_path x ks; subscr_path y ks'.
Proof.
  revert x. induction ks as [|k ks IH]; intros x; simpl; [reflexivity|].
  destruct (py_subscr x k) as [y|e]; simpl; [apply IH | reflexivity].
Qed.

(** The laboratory identifier is read off the first audience entry. *)
Lemma lab_id_of_first row_data first rest :
  audience_of row_data = Ok (JArr (first :: rest)) ->
  lab_id_of row_data = py_subscr first (JStr "id").
Proof.
  unfold audience_of, lab_id_of. intros H.
  change [JStr "relationships"; JStr "og_audience"; JStr "data"; JInt 0; JStr "id"]
    with ([JStr "relationships"; JStr "og_audience"; JStr "data"]
          ++ [JInt 0; JStr "id"])%list.
  rewrite subscr_path_app, H. simpl.
  by destruct (py_subscr first (JStr "id")).
Qed.

(** The row depends on the container through its three relationship
    identifiers and its attributes only. *)
Lemma extract_container_info_ext row_data row_data' reference :
  chemical_type_id_of row_data' = chemical_type_id_of row_data ->
  chemical_space_id_of row_data' = chemical_space_id_of row_data ->
  lab_id_of row_data' = lab_id_of row_data ->
  (forall f, subscr_path row_data' [JStr "attributes"; f]
             = subscr_path row_data [JStr "attributes"; f]) ->
  extract_container_info row_data' reference
  = extract_container_info row_data reference.
Proof.
  unfold chemical_type_id_of, chemical_space_id_of, lab_id_of.
  intros Ht Hs Hl Ha. unfold extract_container_info.
  rewrite Ht, Hs, Hl, !Ha. reflexivity.
Qed.

(** A container with an audience list is a dict holding a dict of
    relationships, which holds a dict for the audience, which holds the list. *)
Lemma audience_of_Ok row_data a :
  audience_of row_data = Ok a ->
  exists m rm am,
    row_data = JObj m /\
    m !! "relationships" = Some (JObj rm) /\
    rm !! "og_audience" = Some (JObj am) /\
    am !! "data" = Some a.
Proof.
  unfold audience_of. intros H.
  apply subscr_path_str_Ok in H as (m & r & -> & Hm & H).
  apply subscr_path_str_Ok in H as (rm & o & -> & Hrm & H).
  apply subscr_path_str_Ok in H as (am & d & -> & Ham & [= ->]).
  by exists m, rm, am.
Qed.

(** C9: for a container whose audience list is [first :: rest], a row, when
    one is produced, has as Group Name the title of the laboratory that the
    identifier of [first] names in the Laboratory mapping; and replacing
    [rest] by any other entries changes neither the row nor the failure. *)
Theorem first_audience_only row_data reference first rest :
  audience_of row_data = Ok (JArr (first :: rest)) ->
  (forall row,
     extract_container_info row_data reference = Ok row ->
     exists id lab title,
       py_subscr first (JStr "id") = Ok id /\
       dict_getitem (laboratory reference) id = Ok lab /\
       obj_getitem lab (JStr "title") = Ok title /\
       row !! "Group Name" = Some title) /\
  (forall rest',
     audience_of (with_audience row_data (first :: rest'))
     = Ok (JArr (first :: rest')) /\
     extract_container_info (with_audience row_data (first :: rest')) reference
     = extract_container_info row_data reference).
Proof.
  intros Haud. split.
  - intros row H. pose proof (lab_id_of_first _ _ _ Haud) as Hlab.
    unfold lab_id_of in Hlab. unfold extract_container_info in H.
    rewrite Hlab in H. bind_inv. subst row.
    do 3 eexists. repeat (split; [eassumption|]). vm_compute. reflexivity.
  - intros rest'.
    destruct (audience_of_Ok _ _ Haud) as (m & rm & am & -> & Hm & Hrm & Ham).
    assert (Haud' : audience_of (with_audience (JObj m) (first :: rest'))
                    = Ok (JArr (first :: rest'))).
    { unfold audience_of, with_audience. rewrite Hm, Hrm.
      by rewrite !subscr_path_cons_obj, lookup_insert_eq,
        !subscr_path_cons_obj, lookup_insert_eq,
        !subscr_path_cons_obj, lookup_insert_eq. }
    split; [exact Haud'|].
    apply extract_container_info_ext.
    + unfold chemical_type_id_of, with_audience. rewrite Hm, Hrm.
      rewrite !subscr_path_cons_obj, lookup_insert_eq, Hm.
      by rewrite !subscr_path_cons_obj, lookup_insert_ne.
    + unfold chemical_space_id_of, with_audience. rewrite Hm, Hrm.
      rewrite !subscr_path_cons_obj, lookup_insert_eq, Hm.
      by rewrite !subscr_path_cons_obj, lookup_insert_ne.
    + by rewrite (lab_id_of_first _ _ _ Haud'), (lab_id_of_first _ _ _ Haud).
    + intros f. unfold with_audience. rewrite Hm, Hrm.
      by rewrite !subscr_path_cons_obj, lookup_insert_ne.
Qed.

Lemma first_audience_only_witness :
  (forall row,
     extract_container_info shared_container scenario_reference = Ok row ->
     exists id lab title,
       py_subscr (obj [("id", JStr "G1")]) (JStr "id") = Ok id /\
       dict_getitem (laboratory scenario_reference) id = Ok lab /\
       obj_getitem lab (JStr "title") = Ok title /\
       row !! "Group Name" = Some title) /\
  (forall rest',
     audience_of (with_audience shared_container (obj [("id", JStr "G1")] :: rest'))
     = Ok (JArr (obj [("id", JStr "G1")] :: rest')) /\
     extract_container_info
       (with_audience shared_container (obj [("id", JStr "G1")] :: rest'))
       scenario_reference
     = extract_container_info shared_container scenario_reference).
Proof.
  apply (first_audience_only shared_container scenario_reference
           (obj [("id", JStr "G1")]) [obj [("id", JStr "G9")]]).
  vm_compute. reflexivity.
Defined.

(** * Further properties *)

(** ** When the builder fails *)

Lemma load_reference_tables_unfold data included :
  included_of data = Ok included ->
  load_reference_tables data
  = c ← index_comprehension "node--chemdb_type" chemdb_fields included ∅;
    s ← index_comprehension "node--space" ["title"] included ∅;
    g ← index_comprehension "node--laboratory" ["title"] included ∅;
    Ok {| chemdb_type := c; space := s; laboratory := g |}.
Proof.
  unfold included_of, load_reference_tables. intros Hinc.
  apply bind_Ok in Hinc as (inc & H1 & H2).
  rewrite H1. simpl. rewrite H2. reflexivity.
Qed.

Lemma index_comprehension_Ok_entries kind fields included acc m :
  index_comprehension kind fields included acc = Ok m ->
  exists entries,
    Forall2 (fun j e => record_entry kind fields j = Ok e) included entries.
Proof.
  revert acc. induction included as [|j js IH]; intros acc H.
  - exists []. constructor.
  - rewrite index_comprehension_cons in H.
    apply bind_Ok in H as (e & He & H).
    destruct (IH _ H) as [es Hes]. exists (e :: es). by constructor.
Qed.

(** A record that every comprehension accepts is well formed. *)
Lemma well_formed_of_entries j :
  (forall k, is_Ok (record_entry (kind_tag k) (kind_fields k) j)) ->
  well_formed_record j.
Proof.
  intros H. destruct (H ChemdbType) as [e0 He0].
  unfold record_entry in He0. apply bind_Ok in He0 as (ty & Hty & _).
  exists ty. split; [exact Hty|]. intros k ->.
  destruct (H k) as [[[key v]|] He].
  - apply record_entry_Some in He as (attrs & Hof & _). by exists key, attrs.
  - unfold record_entry in He. apply bind_Ok in He as (ty' & Hty' & He).
    rewrite Hty in Hty'. injection Hty' as <-.
    rewrite (proj2 (py_eq_str_true _ _) eq_refl) in He.
    bind_inv. discriminate.
Qed.

(** A successful build tells that the collection was iterable and its
    records well formed, and each mapping is the run of insertions of the
    contributions of the records. *)
Lemma load_Ok_inv data reference :
  load_reference_tables data = Ok reference ->
  exists included,
    included_of data = Ok included /\
    Forall well_formed_record included /\
    forall k, exists entries,
      entries_of k included entries /\
      table k reference = foldl add_entry ∅ entries.
Proof.
  intros H.
  destruct (included_of data) as [included|e] eqn:Hinc.
  - exists included. split; [reflexivity|].
    assert (Hwf : Forall well_formed_record included).
    { rewrite (load_reference_tables_unfold _ _ Hinc) in H.
      apply bind_Ok in H as (c & Hc & H).
      apply bind_Ok in H as (s & Hs & H).
      apply bind_Ok in H as (g & Hg & _).
      apply index_comprehension_Ok_entries in Hc as [ec Hc].
      apply index_comprehension_Ok_entries in Hs as [es Hs].
      apply index_comprehension_Ok_entries in Hg as [eg Hg].
      apply Forall_lookup. intros i j Hi. apply well_formed_of_entries.
      intros [| |].
      - destruct (Forall2_lookup_l _ _ _ _ _ Hc Hi) as (e & _ & He). by exists e.
      - destruct (Forall2_lookup_l _ _ _ _ _ Hs Hi) as (e & _ & He). by exists e.
      - destruct (Forall2_lookup_l _ _ _ _ _ Hg Hi) as (e & _ & He). by exists e. }
    split; [exact Hwf|].
    destruct (load_well_formed _ _ Hinc Hwf) as (reference' & Hload & Htab).
    rewrite H in Hload. by injection Hload as <-.
  - exfalso. unfold included_of in Hinc. unfold load_reference_tables in H.
    apply bind_Ok in H as (c & Hc & _).
    apply bind_Ok in Hc as (inc & H1 & Hc).
    apply bind_Ok in Hc as (l & H2 & _).
    rewrite H1 in Hinc. simpl in Hinc. rewrite H2 in Hinc. discriminate Hinc.
Qed.

(** X1: the builder succeeds exactly on the documents whose auxiliary
    collection can be iterated and holds well-formed records only. *)
Theorem load_succeeds_iff data :
  is_Ok (load_reference_tables data) <->
  exists included,
    included_of data = Ok included /\ Forall well_formed_record included.
Proof.
  split.
  - intros [reference H].
    destruct (load_Ok_inv _ _ H) as (included & Hinc & Hwf & _).
    by exists included.
  - intros (included & Hinc & Hwf).
    destruct (load_well_formed _ _ Hinc Hwf) as (reference & Hload & _).
    by exists reference.
Qed.

Lemma load_succeeds_iff_witness :
  is_Ok (load_reference_tables (document [] (foreign_record :: scenario_included))).
Proof.
  apply (proj2 (load_succeeds_iff
                  (document [] (foreign_record :: scenario_included)))).
  exists (foreign_record :: scenario_included).
  split; [vm_compute; reflexivity|].
  repeat constructor.
  - exact foreign_record_well_formed.
  - apply chemdb_record_well_formed.
  - apply titled_record_well_formed.
  - apply titled_record_well_formed.
Defined.

(** The builder fails with the error of the first record that the
    comprehension for chemical types cannot process. *)
Lemma load_raises_first data pre j post e :
  included_of data = Ok (pre ++ j :: post)%list ->
  Forall well_formed_record pre ->
  record_entry "node--chemdb_type" chemdb_fields j = Raise e ->
  load_reference_tables data = Raise e.
Proof.
  intros Hinc Hwf Hj. rewrite (load_reference_tables_unfold _ _ Hinc).
  destruct (well_formed_entries ChemdbType _ Hwf) as [es Hes].
  unfold entries_of in Hes. simpl in Hes.
  by rewrite (index_comprehension_raises _ _ _ _ _ _ _ _ Hes Hj).
Qed.

(** X2: a record that is not a dict, or a dict without a type tag, makes the
    builder fail whatever its kind would have been: the first such record
    after well-formed ones gives a type error, or a key error for [type]. *)
Theorem malformed_record_error data pre j post :
  included_of data = Ok (pre ++ j :: post)%list ->
  Forall well_formed_record pre ->
  ((forall m, j <> JObj m) -> load_reference_tables data = Raise TypeError) /\
  (forall m, j = JObj m -> m !! "type" = None ->
             load_reference_tables data = Raise (KeyError (KStr "type"))).
Proof.
  intros Hinc Hwf. split.
  - intros Hj. apply (load_raises_first _ _ _ _ _ Hinc Hwf).
    destruct j as [| b | z | s | l | m]; try reflexivity.
    by destruct (Hj m).
  - intros m -> Hm. apply (load_raises_first _ _ _ _ _ Hinc Hwf).
    unfold record_entry. simpl. unfold obj_getitem. simpl. by rewrite Hm.
Qed.

Lemma malformed_record_error_witness :
  load_reference_tables
    (document [] (scenario_included ++ [JStr "node--space"])) = Raise TypeError /\
  load_reference_tables
    (document [] (scenario_included ++ [untyped_record; foreign_record]))
  = Raise (KeyError (KStr "type")).
Proof.
  split.
  - apply (proj1 (malformed_record_error
                    (document [] (scenario_included ++ [JStr "node--space"]))
                    scenario_included (JStr "node--space") []
                    ltac:(vm_compute; reflexivity)
                    ltac:(repeat constructor;
                          [apply chemdb_record_well_formed
                          |apply titled_record_well_formed
                          |apply titled_record_well_formed]))).
    discriminate.
  - apply (proj2 (malformed_record_error
                    (document [] (scenario_included ++ [untyped_record; foreign_record]))
                    scenario_included untyped_record [foreign_record]
                    ltac:(vm_compute; reflexivity)
                    ltac:(repeat constructor;
                          [apply chemdb_record_well_formed
                          |apply titled_record_well_formed
                          |apply titled_record_well_formed]))
             (list_to_map [("id", JStr "Z1")])).
    + reflexivity.
    + vm_compute. reflexivity.
Defined.

Lemma py_subscr_obj m s :
  py_subscr (JObj m) (JStr s)
  = match m !! s with
    | Some v => Ok v
    | None => Raise (KeyError (KStr s))
    end.
Proof. reflexivity. Qed.

(** A record of one kind contributes nothing to the other two mappings. *)
Lemma other_kind_entry k k' j :
  py_subscr j (JStr "type") = Ok (JStr (kind_tag k)) ->
  k' <> k ->
  record_entry (kind_tag k') (kind_fields k') j = Ok None.
Proof.
  intros Hty Hne. unfold record_entry. rewrite Hty. simpl.
  destruct k, k'; try congruence; reflexivity.
Qed.

Lemma entries_of_app_cons k pre j post e :
  Forall well_formed_record pre ->
  Forall well_formed_record post ->
  record_entry (kind_tag k) (kind_fields k) j = Ok e ->
  exists entries, entries_of k (pre ++ j :: post) entries.
Proof.
  intros Hpre Hpost Hj.
  destruct (well_formed_entries k _ Hpre) as [epre Hepre].
  destruct (well_formed_entries k _ Hpost) as [epost Hepost].
  exists (epre ++ e :: epost)%list. unfold entries_of in *.
  apply Forall2_app; [exact Hepre|]. by constructor.
Qed.

(** The builder fails with the error of a record of a recognized kind that
    its own comprehension cannot process, when the records around it are
    well formed. *)
Lemma load_raises_at data pre j post k e :
  included_of data = Ok (pre ++ j :: post)%list ->
  Forall well_formed_record pre ->
  Forall well_formed_record post ->
  py_subscr j (JStr "type") = Ok (JStr (kind_tag k)) ->
  record_entry (kind_tag k) (kind_fields k) j = Raise e ->
  load_reference_tables data = Raise e.
Proof.
  intros Hinc Hpre Hpost Hty Hj.
  rewrite (load_reference_tables_unfold _ _ Hinc).
  destruct (well_formed_entries k _ Hpre) as [epre Hepre].
  unfold entries_of in Hepre.
  pose proof (index_comprehension_raises _ _ _ _ post _ _ ∅ Hepre Hj) as Hk.
  destruct k; simpl in Hk.
  - by rewrite Hk.
  - assert (Hne : ChemdbType <> Space) by discriminate.
    destruct (entries_of_app_cons ChemdbType pre j post None Hpre Hpost
                (other_kind_entry Space ChemdbType j Hty Hne)) as [ec Hc].
    rewrite (index_comprehension_entries _ _ _ _ _ Hc). simpl.
    by rewrite Hk.
  - assert (Hne : ChemdbType <> Laboratory) by discriminate.
    assert (Hne' : Space <> Laboratory) by discriminate.
    destruct (entries_of_app_cons ChemdbType pre j post None Hpre Hpost
                (other_kind_entry Laboratory ChemdbType j Hty Hne)) as [ec Hc].
    destruct (entries_of_app_cons Space pre j post None Hpre Hpost
                (other_kind_entry Laboratory Space j Hty Hne')) as [es Hs].
    rewrite (index_comprehension_entries _ _ _ _ _ Hc). simpl.
    rewrite (index_comprehension_entries _ _ _ _ _ Hs). simpl.
    by rewrite Hk.
Qed.

(** X3: a record tagged with one of the three kinds must carry an
    identifier, an attribute dict and a hashable identifier; among
    well-formed records, one that lacks them makes the builder fail with a
    key error for [id], a key error for [attributes], an attribute error,
    or a type error, in that order of precedence. *)
Theorem recognized_record_errors data pre m post k :
  included_of data = Ok (pre ++ JObj m :: post)%list ->
  Forall well_formed_record pre ->
  Forall well_formed_record post ->
  m !! "type" = Some (JStr (kind_tag k)) ->
  (m !! "id" = None ->
   load_reference_tables data = Raise (KeyError (KStr "id"))) /\
  (forall id,
     m !! "id" = Some id -> m !! "attributes" = None ->
     load_reference_tables data = Raise (KeyError (KStr "attributes"))) /\
  (forall id a,
     m !! "id" = Some id -> m !! "attributes" = Some a ->
     (forall d, a <> JObj d) ->
     load_reference_tables data = Raise AttributeError) /\
  (forall id d,
     m !! "id" = Some id -> m !! "attributes" = Some (JObj d) ->
     is_Raise (to_key id) ->
     load_reference_tables data = Raise TypeError).
Proof.
  intros Hinc Hpre Hpost Hty.
  assert (Hty' : py_subscr (JObj m) (JStr "type") = Ok (JStr (kind_tag k)))
    by (by rewrite py_subscr_obj, Hty).
  assert (Hstep : forall e,
            (id ← py_subscr (JObj m) (JStr "id");
             attributes ← py_subscr (JObj m) (JStr "attributes");
             items ← py_items attributes;
             key ← to_key id;
             Ok (Some (key, keep_fields (kind_fields k) items))) = Raise e ->
            load_reference_tables data = Raise e).
  { intros e He. apply (load_raises_at _ _ _ _ k e Hinc Hpre Hpost Hty').
    unfold record_entry. rewrite Hty'. simpl.
    rewrite bool_decide_true by reflexivity. exact He. }
  repeat split.
  - intros Hid. apply Hstep. by rewrite !py_subscr_obj, Hid.
  - intros id Hid Ha. apply Hstep. rewrite !py_subscr_obj, Hid, Ha. reflexivity.
  - intros id a Hid Ha Hobj. apply Hstep. rewrite !py_subscr_obj, Hid, Ha. simpl.
    destruct a as [| b | z | s | l | d]; try reflexivity. by destruct (Hobj d).
  - intros id d Hid Ha [e He]. apply Hstep. rewrite !py_subscr_obj, Hid, Ha. simpl.
    destruct id; simpl in He; try discriminate He; reflexivity.
Qed.

Lemma recognized_record_errors_witness :
  load_reference_tables (document [] (scenario_included ++ [space_without_id]))
  = Raise (KeyError (KStr "id")).
Proof.
  refine (proj1 (recognized_record_errors
                   (document [] (scenario_included ++ [space_without_id]))
                   scenario_included
                   (list_to_map [("type", JStr "node--space");
                                 ("attributes", obj [("title", JStr "Room 1")])])
                   [] Space _ _ _ _) _).
  - vm_compute. reflexivity.
  - repeat constructor.
    + apply chemdb_record_well_formed.
    + apply titled_record_well_formed.
    + apply titled_record_well_formed.
  - constructor.
  - vm_compute. reflexivity.
  - vm_compute. reflexivity.
Defined.

(** ** The index does not depend on the order of the records *)

(** With consistent identifiers, a mapping binds a key to the kept
    attributes of any record of the kind that carries it. *)
Lemma load_consistent data included :
  included_of data = Ok included ->
  Forall well_formed_record included ->
  consistent_ids included ->
  exists reference,
    load_reference_tables data = Ok reference /\
    forall k key entry,
      table k reference !! key = Some entry <->
      exists j attrs,
        j ∈ included /\ record_of k key attrs j /\
        entry = keep_fields (kind_fields k) attrs.
Proof.
  intros Hinc Hwf Hcons.
  destruct (load_well_formed _ _ Hinc Hwf) as (reference & Hload & Htab).
  exists reference. split; [exact Hload|].
  intros k key entry. destruct (Htab k) as (entries & Hes & ->).
  assert (Hlatest : forall entry',
            foldl add_entry ∅ entries !! key = Some entry' ->
            exists j attrs,
              j ∈ included /\ record_of k key attrs j /\
              entry' = keep_fields (kind_fields k) attrs).
  { intros entry' Hlook.
    destruct (table_lookup_latest _ _ _ _ _ Hes Hlook)
      as (pre & j & post & attrs & -> & Hof & -> & _).
    exists j, attrs. split; [|by split].
    apply elem_of_app. right. by left. }
  split; [apply Hlatest|].
  intros (j & attrs & Hin & Hof & ->).
  assert (Hsome : is_Some (foldl add_entry ∅ entries !! key)).
  { apply list_elem_of_lookup in Hin as [i Hi]. unfold entries_of in Hes.
    destruct (Forall2_lookup_l _ _ _ _ _ Hes Hi) as (e & He & Hje).
    simpl in Hje. rewrite (record_of_entry _ _ _ _ Hof) in Hje.
    injection Hje as <-.
    eapply foldl_add_entry_is_Some. by eapply list_elem_of_lookup_2. }
  destruct Hsome as [entry' Hlook]. rewrite Hlook.
  destruct (Hlatest _ Hlook) as (j' & attrs' & Hin' & Hof' & ->).
  by rewrite (Hcons k key j j' attrs attrs' Hin Hin' Hof Hof').
Qed.

(** X4: when records of one kind that share an identifier agree on their
    attributes, the index depends on which records the collection holds
    and not on their order or multiplicity: two collections with the same
    members give the same index. *)
Theorem index_order_irrelevant data data' included included' :
  included_of data = Ok included ->
  included_of data' = Ok included' ->
  (forall j, j ∈ included <-> j ∈ included') ->
  Forall well_formed_record included ->
  consistent_ids included ->
  exists reference,
    load_reference_tables data = Ok reference /\
    load_reference_tables data' = Ok reference.
Proof.
  intros Hinc Hinc' Hmem Hwf Hcons.
  assert (Hwf' : Forall well_formed_record included').
  { apply Forall_forall. intros j Hj. apply Hmem in Hj.
    by apply (proj1 (Forall_forall _ _) Hwf). }
  assert (Hcons' : consistent_ids included').
  { intros k key j j' attrs attrs' Hj Hj'. apply Hmem in Hj, Hj'.
    by apply Hcons. }
  destruct (load_consistent _ _ Hinc Hwf Hcons) as (r & Hr & Hspec).
  destruct (load_consistent _ _ Hinc' Hwf' Hcons') as (r' & Hr' & Hspec').
  exists r. split; [exact Hr|]. rewrite Hr'. f_equal.
  assert (Heq : forall k, table k r' = table k r).
  { intros k. apply map_eq. intros key. apply option_eq. intros entry.
    rewrite Hspec, Hspec'. split.
    - intros (j & attrs & Hin & H). exists j, attrs. split; [by apply Hmem|done].
    - intros (j & attrs & Hin & H). exists j, attrs. split; [by apply Hmem|done]. }
  destruct r as [c s g], r' as [c' s' g'].
  pose proof (Heq ChemdbType) as Hc. pose proof (Heq Space) as Hs.
  pose proof (Heq Laboratory) as Hg. simpl in Hc, Hs, Hg. by subst.
Qed.

Lemma consistent_ids_scenario : consistent_ids scenario_included.
Proof.
  intros k key j j' attrs attrs' Hj Hj' (Hty & _ & Ha) (Hty' & _ & Ha').
  unfold scenario_included in Hj, Hj'.
  repeat match goal with
         | H : _ ∈ _ :: _ |- _ => apply elem_of_cons in H as [->|H]
         | H : _ ∈ [] |- _ => by apply elem_of_nil in H
         end;
    vm_compute in Hty, Hty', Ha, Ha'; destruct k; congruence.
Qed.

Lemma index_order_irrelevant_witness :
  exists reference,
    load_reference_tables (document [] scenario_included) = Ok reference /\
    load_reference_tables
      (document [scenario_container JNull] (reverse scenario_included))
    = Ok reference.
Proof.
  apply (index_order_irrelevant
           (document [] scenario_included)
           (document [scenario_container JNull] (reverse scenario_included))
           scenario_included (reverse scenario_included)).
  - vm_compute. reflexivity.
  - vm_compute. reflexivity.
  - intros j. symmetry. apply elem_of_reverse.
  - repeat constructor.
    + apply chemdb_record_well_formed.
    + apply titled_record_well_formed.
    + apply titled_record_well_formed.
  - exact consistent_ids_scenario.
Defined.

(** ** What a row holds, and when there is one *)

Lemma obj_getitem_str_Ok {V} (d : gmap string V) (s : string) (v : V) :
  obj_getitem d (JStr s) = Ok v <-> d !! s = Some v.
Proof.
  unfold obj_getitem. simpl. destruct (d !! s) as [w|]; split;
    intros H; try discriminate H; by injection H as ->.
Qed.

Lemma bind_Ok_l {A B} (a : A) (f : A -> result B) : Ok a ≫= f = f a.
Proof. reflexivity. Qed.

(** Builds a successful sequence of binds from its successful steps. *)
Ltac bind_intro :=
  lazymatch goal with
  | |- (_ ≫= _) = Ok _ =>
      apply bind_Ok; eexists; split; [bind_intro | cbv beta; bind_intro]
  | |- Ok _ = Ok _ => reflexivity
  | |- _ => eassumption
  end.

(** X5: every column of a row has one source.  The CAS number and the
    formula are those the index holds for the container's chemical type,
    the location is the title the index holds for its space, and nine
    columns are read from the container's own attributes. *)
Theorem row_provenance row_data reference row :
  extract_container_info row_data reference = Ok row ->
  exists tid t sid s,
    chemical_type_id_of row_data = Ok tid /\
    dict_getitem (chemdb_type reference) tid = Ok t /\
    chemical_space_id_of row_data = Ok sid /\
    dict_getitem (space reference) sid = Ok s /\
    is_Some (t !! "field_chemdb_cas_number") /\
    row !! "CAS Number" = t !! "field_chemdb_cas_number" /\
    is_Some (t !! "field_chemdb_chemical_formula") /\
    row !! "chemical_formula" = t !! "field_chemdb_chemical_formula" /\
    is_Some (s !! "title") /\
    row !! "Location (space)" = s !! "title" /\
    Forall (fun cf : string * string =>
              exists v,
                subscr_path row_data [JStr "attributes"; JStr cf.2] = Ok v /\
                row !! cf.1 = Some v)
      direct_columns.
Proof.
  unfold extract_container_info, chemical_type_id_of, chemical_space_id_of.
  intros H. bind_inv. subst row.
  repeat match goal with
         | H : obj_getitem _ (JStr _) = Ok _ |- _ =>
             apply obj_getitem_str_Ok in H
         end.
  do 4 eexists. do 4 (split; [eassumption|]).
  repeat match goal with
         | H : ?t !! ?f = Some _ |- context [?t !! ?f] => rewrite H
         end.
  repeat (split; [first [by eexists | vm_compute; reflexivity]|]).
  unfold direct_columns.
  repeat constructor; eexists; (split; [eassumption | vm_compute; reflexivity]).
Qed.

Lemma row_provenance_witness :
  exists tid t sid s,
    chemical_type_id_of (scenario_container JNull) = Ok tid /\
    dict_getitem (chemdb_type scenario_reference) tid = Ok t /\
    chemical_space_id_of (scenario_container JNull) = Ok sid /\
    dict_getitem (space scenario_reference) sid = Ok s /\
    (list_to_map (zip CSV_HEADER (scenario_cells JNull)) : gmap string json)
      !! "CAS Number" = t !! "field_chemdb_cas_number" /\
    (list_to_map (zip CSV_HEADER (scenario_cells JNull)) : gmap string json)
      !! "Location (space)" = s !! "title".
Proof.
  destruct (row_provenance (scenario_container JNull) scenario_reference
              (list_to_map (zip CSV_HEADER (scenario_cells JNull))))
    as (tid & t & sid & s & H1 & H2 & H3 & H4 & _ & H5 & _ & _ & _ & H6 & _).
  - vm_compute. reflexivity.
  - exists tid, t, sid, s. repeat split; assumption.
Defined.

(** X6: a row has exactly the fourteen columns of the header, and the line
    written for it holds, cell by cell, the value of the row under the
    column of the header at that place: no cell is the writer's filler. *)
Theorem row_schema row_data reference row :
  extract_container_info row_data reference = Ok row ->
  dom row = list_to_set CSV_HEADER /\
  Forall2 (fun col cell => row !! col = Some cell) CSV_HEADER (row_cells row).
Proof.
  unfold extract_container_info. intros H. bind_inv. subst row. split.
  - vm_compute. reflexivity.
  - unfold row_cells, CSV_HEADER. simpl fmap.
    repeat constructor; vm_compute; reflexivity.
Qed.

Lemma row_schema_witness :
  dom (list_to_map (zip CSV_HEADER (scenario_cells JNull)) : gmap string json)
  = list_to_set CSV_HEADER /\
  Forall2 (fun col cell =>
             (list_to_map (zip CSV_HEADER (scenario_cells JNull))
                : gmap string json) !! col = Some cell)
    CSV_HEADER
    (row_cells (list_to_map (zip CSV_HEADER (scenario_cells JNull)))).
Proof.
  apply (row_schema (scenario_container JNull) scenario_reference).
  vm_compute. reflexivity.
Defined.

(** X7: the extractor produces a row exactly when the container's three
    relationship identifiers resolve in the index, the chemical type holds
    a CAS number, a formula and one of the codes S, L, G, the space and the
    laboratory hold a title, and the container has its seven attributes. *)
Theorem extract_succeeds_iff row_data reference :
  is_Ok (extract_container_info row_data reference) <->
  (exists tid t code,
     chemical_type_id_of row_data = Ok tid /\
     dict_getitem (chemdb_type reference) tid = Ok t /\
     is_Some (t !! "field_chemdb_cas_number") /\
     t !! "field_chemdb_physical_state" = Some code /\
     (code = JStr "S" \/ code = JStr "L" \/ code = JStr "G") /\
     is_Some (t !! "field_chemdb_chemical_formula")) /\
  (exists sid s,
     chemical_space_id_of row_data = Ok sid /\
     dict_getitem (space reference) sid = Ok s /\
     is_Some (s !! "title")) /\
  (exists lid g,
     lab_id_of row_data = Ok lid /\
     dict_getitem (laboratory reference) lid = Ok g /\
     is_Some (g !! "title")) /\
  Forall (fun f => is_Ok (subscr_path row_data [JStr "attributes"; JStr f]))
    container_attributes.
Proof.
  unfold chemical_type_id_of, chemical_space_id_of, lab_id_of. split.
  - intros [row H]. unfold extract_container_info in H. bind_inv.
    repeat match goal with
           | H : obj_getitem _ (JStr _) = Ok _ |- _ =>
               apply obj_getitem_str_Ok in H
           end.
    split; [|split; [|split]].
    + do 3 eexists. do 2 (split; [eassumption|]).
      split; [by eexists|]. split; [eassumption|].
      split; [|by eexists].
      match goal with
      | H : obj_getitem PHYSICAL_STATES _ = Ok _ |- _ =>
          apply PHYSICAL_STATES_inv in H as [[-> _]|[[-> _]|[-> _]]]; auto
      end.
    + do 2 eexists. do 2 (split; [eassumption|]). by eexists.
    + do 2 eexists. do 2 (split; [eassumption|]). by eexists.
    + unfold container_attributes. repeat constructor; by eexists.
  - intros ((tid & t & code & Htid & Ht & [cas Hcas] & Hcode & Hslg & [fm Hfm])
            & (sid & s & Hsid & Hs & [loc Hloc])
            & (lid & g & Hlid & Hg & [own Hown]) & Hattrs).
    unfold container_attributes in Hattrs.
    repeat match goal with
           | H : Forall _ (_ :: _) |- _ => apply Forall_cons in H as [[? ?] H]
           end.
    apply obj_getitem_str_Ok in Hcas, Hcode, Hfm, Hloc, Hown.
    assert (Hlabel : exists label, obj_getitem PHYSICAL_STATES code = Ok label).
    { destruct Hslg as [-> | [-> | ->]]; eexists; reflexivity. }
    destruct Hlabel as [label Hlabel].
    eexists. unfold extract_container_info. bind_intro.
Qed.

Lemma extract_succeeds_iff_witness :
  is_Ok (extract_container_info (scenario_container JNull) scenario_reference).
Proof.
  apply (proj2 (extract_succeeds_iff (scenario_container JNull) scenario_reference)).
  split; [|split; [|split]].
  - exists (JStr "T1"),
      {[ "field_chemdb_cas_number" := JStr "123-45-6";
         "field_chemdb_physical_state" := JStr "L";
         "field_chemdb_chemical_formula" := JStr "H2O" ]}, (JStr "L").
    repeat split; try (vm_compute; reflexivity); try (eexists; vm_compute; reflexivity).
    right. left. reflexivity.
  - exists (JStr "S1"), {[ "title" := JStr "Room 204" ]}.
    repeat split; try (vm_compute; reflexivity). eexists. vm_compute. reflexivity.
  - exists (JStr "G1"), {[ "title" := JStr "Smith Lab" ]}.
    repeat split; try (vm_compute; reflexivity). eexists. vm_compute. reflexivity.
  - repeat constructor; eexists; vm_compute; reflexivity.
Defined.

Lemma dict_getitem_None {V} (d : gmap pykey V) (i : json) (key : pykey) :
  to_key i = Ok key -> d !! key = None ->
  dict_getitem d i = Raise (KeyError key).
Proof. unfold dict_getitem. intros -> Hd. simpl. by rewrite Hd. Qed.

(** X8: a failure to resolve the chemical type is the error the caller
    sees, whatever else is wrong with the container: the error of reading
    the identifier when that fails, and otherwise a key error that carries
    the identifier missing from the Chemical Type mapping. *)
Theorem unresolved_chemical_type_error row_data reference :
  (forall e,
     chemical_type_id_of row_data = Raise e ->
     extract_container_info row_data reference = Raise e) /\
  (forall id key,
     chemical_type_id_of row_data = Ok id ->
     to_key id = Ok key ->
     chemdb_type reference !! key = None ->
     extract_container_info row_data reference = Raise (KeyError key)).
Proof.
  unfold chemical_type_id_of. split.
  - intros e H. unfold extract_container_info. by rewrite H.
  - intros id key H Hkey Hnone. unfold extract_container_info.
    rewrite H, bind_Ok_l, (dict_getitem_None _ _ _ Hkey Hnone). reflexivity.
Qed.

Lemma unresolved_chemical_type_error_witness :
  extract_container_info
    (container_record "T2" "S9" [] JNull) scenario_reference
  = Raise (KeyError (KStr "T2")).
Proof.
  apply (proj2 (unresolved_chemical_type_error
                  (container_record "T2" "S9" [] JNull) scenario_reference)
           (JStr "T2")).
  - vm_compute. reflexivity.
  - reflexivity.
  - vm_compute. reflexivity.
Defined.

(** X9: a container whose audience list is empty has no laboratory
    identifier: reading it is an index error, and no index makes the
    extractor produce a row for it. *)
Theorem empty_audience_fails row_data :
  audience_of row_data = Ok (JArr []) ->
  lab_id_of row_data = Raise IndexError /\
  forall reference, is_Raise (extract_container_info row_data reference).
Proof.
  intros Haud.
  assert (Hlab : lab_id_of row_data = Raise IndexError).
  { unfold audience_of, lab_id_of in *.
    change [JStr "relationships"; JStr "og_audience"; JStr "data"; JInt 0; JStr "id"]
      with ([JStr "relationships"; JStr "og_audience"; JStr "data"]
            ++ [JInt 0; JStr "id"])%list.
    by rewrite subscr_path_app, Haud. }
  split; [exact Hlab|]. intros reference.
  destruct (extract_container_info row_data reference) as [row|e] eqn:E;
    [exfalso|by exists e].
  unfold extract_container_info in E. unfold lab_id_of in Hlab. bind_inv.
  congruence.
Qed.

Lemma empty_audience_fails_witness :
  lab_id_of (container_record "T1" "S1" [] JNull) = Raise IndexError /\
  forall reference,
    is_Raise (extract_container_info (container_record "T1" "S1" [] JNull)
                reference).
Proof.
  apply (empty_audience_fails (container_record "T1" "S1" [] JNull)).
  vm_compute. reflexivity.
Defined.

Lemma dict_getitem_weaken {V} (d d' : gmap pykey V) (i : json) (v : V) :
  d ⊆ d' -> dict_getitem d i = Ok v -> dict_getitem d' i = Ok v.
Proof.
  unfold dict_getitem. intros Hsub.
  destruct (to_key i) as [k|e]; simpl; [|discriminate].
  destruct (d !! k) as [w|] eqn:E; [|discriminate].
  intros [= ->]. by rewrite (lookup_weaken _ _ _ _ E Hsub).
Qed.

(** X10: a row does not change when the index grows: if each mapping of
    a second index extends the corresponding mapping of the first, every
    row produced with the first is produced with the second. *)
Theorem extract_index_extension row_data reference reference' row :
  chemdb_type reference ⊆ chemdb_type reference' ->
  space reference ⊆ space reference' ->
  laboratory reference ⊆ laboratory reference' ->
  extract_container_info row_data reference = Ok row ->
  extract_container_info row_data reference' = Ok row.
Proof.
  intros Hc Hs Hg H. unfold extract_container_info in *. bind_inv.
  repeat match goal with
         | H : dict_getitem (chemdb_type reference) _ = Ok _ |- _ =>
             apply (dict_getitem_weaken _ _ _ _ Hc) in H
         | H : dict_getitem (space reference) _ = Ok _ |- _ =>
             apply (dict_getitem_weaken _ _ _ _ Hs) in H
         | H : dict_getitem (laboratory reference) _ = Ok _ |- _ =>
             apply (dict_getitem_weaken _ _ _ _ Hg) in H
         end.
  subst row. bind_intro.
Qed.

Lemma extract_index_extension_witness :
  extract_container_info (scenario_container JNull)
    {| chemdb_type := <[KStr "T2" := ∅]> (chemdb_type scenario_reference);
       space := <[KInt 7 := ∅]> (space scenario_reference);
       laboratory := laboratory scenario_reference |}
  = Ok (list_to_map (zip CSV_HEADER (scenario_cells JNull))).
Proof.
  apply (extract_index_extension (scenario_container JNull) scenario_reference).
  - apply insert_subseteq. vm_compute. reflexivity.
  - apply insert_subseteq. vm_compute. reflexivity.
  - reflexivity.
  - vm_compute. reflexivity.
Defined.

(** X11: a container that is not a dict is a type error, with any index. *)
Theorem non_object_container row_data reference :
  (forall m, row_data <> JObj m) ->
  extract_container_info row_data reference = Raise TypeError.
Proof.
  intros H. destruct row_data as [| b | z | s | l | m]; try reflexivity.
  by destruct (H m).
Qed.

Lemma non_object_container_witness :
  extract_container_info (JStr "attributes") scenario_reference
  = Raise TypeError.
Proof.
  apply (non_object_container (JStr "attributes") scenario_reference).
  discriminate.
Defined.

(** ** What a run leaves in the file *)

(** The loop writes the lines of the rows of a prefix of the containers; it
    ends well when the prefix is the whole list, and otherwise with the
    error of the container after the prefix. *)
Lemma write_rows_prefix reference containers f_output :
  exists rows,
    Forall2 (row_of reference) (take (length rows) containers) rows /\
    (write_rows reference containers f_output).2
    = (f_output ++ (row_cells <$> rows))%list /\
    ((write_rows reference containers f_output).1 = Ok () ->
     length rows = length containers) /\
    (forall e,
       (write_rows reference containers f_output).1 = Raise e ->
       exists c,
         containers !! length rows = Some c /\
         extract_container_info c reference = Raise e).
Proof.
  revert f_output. induction containers as [|c cs IH]; intros f_output.
  - exists []. simpl. split; [constructor|]. split; [by rewrite app_nil_r|].
    split; [done|]. intros e [=].
  - simpl. destruct (extract_container_info c reference) as [row|e] eqn:Hc.
    + rewrite (writerow_extracted _ _ _ Hc).
      destruct (IH (f_output ++ [row_cells row])%list)
        as (rows & Hrows & Hf & Hok & Herr).
      exists (row :: rows). simpl.
      split; [by constructor|]. split; [by rewrite Hf, <- app_assoc|].
      split; [intros H; by rewrite (Hok H)|exact Herr].
    + exists []. simpl. split; [constructor|]. split; [by rewrite app_nil_r|].
      split; [discriminate|]. intros e' [= <-]. by exists c.
Qed.

(** X12: a run ends without error only if the index was built, the
    containers could be read, and every container gave a row; the file then
    holds the header and the lines of all the rows, in order. *)
Theorem run_success_inv json_data old out :
  process_json_response json_data old = (Ok (), out) ->
  exists reference containers rows,
    load_reference_tables json_data = Ok reference /\
    containers_of json_data = Ok containers /\
    Forall2 (row_of reference) containers rows /\
    out = Some (header_line :: (row_cells <$> rows)).
Proof.
  unfold process_json_response, containers_of.
  destruct (load_reference_tables json_data) as [reference|e]; [|discriminate].
  destruct (py_subscr json_data (JStr "data") ≫= _) as [containers|e];
    [|discriminate].
  destruct (write_rows_prefix reference containers [header_line])
    as (rows & Hrows & Hf & Hok & _).
  destruct (write_rows reference containers [header_line]) as [r f].
  simpl in *. intros [= -> <-].
  exists reference, containers, rows. split; [reflexivity|].
  split; [reflexivity|]. split; [|by rewrite Hf].
  rewrite (Hok eq_refl), take_ge in Hrows by done. exact Hrows.
Qed.

Lemma run_success_inv_witness :
  exists reference containers rows,
    load_reference_tables (scenario_document JNull) = Ok reference /\
    containers_of (scenario_document JNull) = Ok containers /\
    Forall2 (row_of reference) containers rows /\
    Some [header_line; scenario_cells JNull]
    = Some (header_line :: (row_cells <$> rows)).
Proof.
  apply (run_success_inv (scenario_document JNull) None).
  vm_compute. reflexivity.
Defined.

(** X13: whatever the document, a run either fails before opening the file
    and leaves it as it was, or leaves a file that starts with the header
    and goes on with the lines of the rows of the first containers, in
    order and without a gap; every line has as many cells as the header. *)
Theorem output_file_shape json_data old :
  (is_Raise (load_reference_tables json_data) /\
   (process_json_response json_data old).2 = old) \/
  (exists reference rows,
     load_reference_tables json_data = Ok reference /\
     (process_json_response json_data old).2
     = Some (header_line :: (row_cells <$> rows)) /\
     Forall (fun line => length line = length CSV_HEADER)
       (header_line :: (row_cells <$> rows)) /\
     forall containers,
       containers_of json_data = Ok containers ->
       Forall2 (row_of reference) (take (length rows) containers) rows).
Proof.
  unfold process_json_response, containers_of.
  destruct (load_reference_tables json_data) as [reference|e];
    [right|left; split; [by exists e|reflexivity]].
  assert (Hlen : forall rows : list (gmap string json),
            Forall (fun line => length line = length CSV_HEADER)
              (header_line :: (row_cells <$> rows))).
  { intros rows. constructor; [apply length_fmap|].
    apply Forall_fmap, Forall_forall. intros row _. apply length_fmap. }
  destruct (py_subscr json_data (JStr "data") ≫= _) as [containers|e].
  - destruct (write_rows_prefix reference containers [header_line])
      as (rows & Hrows & Hf & _).
    destruct (write_rows reference containers [header_line]) as [r f].
    simpl in *. exists reference, rows. split; [reflexivity|].
    split; [by rewrite Hf|]. split; [apply Hlen|].
    by intros containers' [= <-].
  - exists reference, []. split; [reflexivity|]. split; [reflexivity|].
    split; [apply Hlen|]. discriminate.
Qed.

Lemma output_file_shape_witness :
  (is_Raise (load_reference_tables half_valid_document) /\
   (process_json_response half_valid_document None).2 = None) \/
  (exists reference rows,
     load_reference_tables half_valid_document = Ok reference /\
     (process_json_response half_valid_document None).2
     = Some (header_line :: (row_cells <$> rows)) /\
     Forall (fun line => length line = length CSV_HEADER)
       (header_line :: (row_cells <$> rows)) /\
     forall containers,
       containers_of half_valid_document = Ok containers ->
       Forall2 (row_of reference) (take (length rows) containers) rows).
Proof. exact (output_file_shape half_valid_document None). Defined.

(** X14: when [data] is not a list the file gets the header and nothing
    else.  An empty dict or string is an empty loop and the run ends well;
    any other value, such as a single resource object in place of the list,
    ends the run with a type error. *)
Theorem data_not_a_list json_data reference d old :
  load_reference_tables json_data = Ok reference ->
  py_subscr json_data (JStr "data") = Ok d ->
  (forall l, d <> JArr l) ->
  (process_json_response json_data old).2 = Some [header_line] /\
  (d = JObj ∅ \/ d = JStr "" ->
   (process_json_response json_data old).1 = Ok ()) /\
  (d <> JObj ∅ -> d <> JStr "" ->
   (process_json_response json_data old).1 = Raise TypeError).
Proof.
  intros Hload Hd Hlist. unfold process_json_response.
  rewrite Hload, Hd, bind_Ok_l.
  destruct d as [| b | z | s | l | m]; simpl;
    try (split; [reflexivity|split; [intros [[=]|[=]]|reflexivity]]).
  - destruct s as [|c s]; simpl.
    + split; [reflexivity|]. split; [reflexivity|]. by intros _ [].
    + split; [reflexivity|]. split; [intros [[=]|[=]]|reflexivity].
  - by destruct (Hlist l).
  - destruct (map_to_list m) as [|[k v] kvs] eqn:E; simpl.
    + apply map_to_list_empty_iff in E as ->.
      split; [reflexivity|]. split; [reflexivity|]. by intros [].
    + split; [reflexivity|]. split; [|reflexivity].
      intros [[= ->]|[=]]. by rewrite map_to_list_empty in E.
Qed.

Lemma data_not_a_list_witness :
  (process_json_response
     (obj [("data", scenario_container JNull);
           ("included", JArr scenario_included)]) None).2
  = Some [header_line] /\
  (process_json_response
     (obj [("data", scenario_container JNull);
           ("included", JArr scenario_included)]) None).1
  = Raise TypeError.
Proof.
  destruct (data_not_a_list
              (obj [("data", scenario_container JNull);
                    ("included", JArr scenario_included)])
              scenario_reference (scenario_container JNull) None)
    as (H1 & _ & H2).
  - vm_compute. reflexivity.
  - vm_compute. reflexivity.
  - discriminate.
  - split; [exact H1|]. apply H2; discriminate.
Defined.

(** ** The join, end to end *)

Lemma dict_getitem_Ok_inv {V} (d : gmap pykey V) (i : json) (v : V) :
  dict_getitem d i = Ok v -> exists key, to_key i = Ok key /\ d !! key = Some v.
Proof.
  unfold dict_getitem. destruct (to_key i) as [key|e]; simpl; [|discriminate].
  destruct (d !! key) as [w|] eqn:E; [|discriminate].
  intros [= ->]. by exists key.
Qed.

Lemma keep_fields_lookup_in fields attrs f :
  f ∈ fields -> keep_fields fields attrs !! f = attrs !! f.
Proof. intros H. by rewrite keep_fields_lookup, decide_True. Qed.

(** An entry found in a mapping of a built index is the kept attributes of
    a record of the collection, of the kind of the mapping. *)
Lemma table_lookup_record data included reference k i entry :
  included_of data = Ok included ->
  load_reference_tables data = Ok reference ->
  dict_getitem (table k reference) i = Ok entry ->
  exists j key attrs,
    j ∈ included /\ record_of k key attrs j /\ to_key i = Ok key /\
    entry = keep_fields (kind_fields k) attrs.
Proof.
  intros Hinc Hload Hget.
  destruct (load_Ok_inv _ _ Hload) as (included' & Hinc' & _ & Htab).
  rewrite Hinc in Hinc'. injection Hinc' as <-.
  destruct (Htab k) as (entries & Hes & Heq). rewrite Heq in Hget.
  apply dict_getitem_Ok_inv in Hget as (key & Hkey & Hlook).
  destruct (table_lookup_latest _ _ _ _ _ Hes Hlook)
    as (pre & j & post & attrs & -> & Hof & -> & _).
  exists j, key, attrs.
  split; [|split; [exact Hof|split; [exact Hkey|reflexivity]]].
  apply elem_of_app. right. by left.
Qed.

(** X15: the row of a container, extracted with the index built from a
    document, joins the container with three records of the document's
    auxiliary collection: a chemical type, a space and a laboratory whose
    identifiers are the container's relationship identifiers.  The CAS
    number, the formula and the physical-state code are attributes of the
    first, the location is the title of the second and the group name the
    title of the third. *)
Theorem row_joins_records data included reference row_data row :
  included_of data = Ok included ->
  load_reference_tables data = Ok reference ->
  extract_container_info row_data reference = Ok row ->
  exists jt kt at_ js ks as_ jl kl al,
    (jt ∈ included /\ record_of ChemdbType kt at_ jt /\
     chemical_type_id_of row_data ≫= to_key = Ok kt) /\
    (js ∈ included /\ record_of Space ks as_ js /\
     chemical_space_id_of row_data ≫= to_key = Ok ks) /\
    (jl ∈ included /\ record_of Laboratory kl al jl /\
     lab_id_of row_data ≫= to_key = Ok kl) /\
    row !! "CAS Number" = at_ !! "field_chemdb_cas_number" /\
    row !! "chemical_formula" = at_ !! "field_chemdb_chemical_formula" /\
    (exists code label,
       at_ !! "field_chemdb_physical_state" = Some code /\
       obj_getitem PHYSICAL_STATES code = Ok label /\
       row !! "Physical State" = Some (JStr label)) /\
    row !! "Location (space)" = as_ !! "title" /\
    row !! "Group Name" = al !! "title".
Proof.
  intros Hinc Hload H.
  unfold extract_container_info in H.
  unfold chemical_type_id_of, chemical_space_id_of, lab_id_of. bind_inv.
  subst row.
  repeat match goal with
         | H : obj_getitem _ (JStr _) = Ok _ |- _ =>
             apply obj_getitem_str_Ok in H
         end.
  match goal with
  | H : dict_getitem (chemdb_type reference) _ = Ok _ |- _ =>
      destruct (table_lookup_record _ _ _ ChemdbType _ _ Hinc Hload H)
        as (jt & kt & at_ & Hjt & Hoft & Hkt & ->)
  end.
  match goal with
  | H : dict_getitem (space reference) _ = Ok _ |- _ =>
      destruct (table_lookup_record _ _ _ Space _ _ Hinc Hload H)
        as (js & ks & as_ & Hjs & Hofs & Hks & ->)
  end.
  match goal with
  | H : dict_getitem (laboratory reference) _ = Ok _ |- _ =>
      destruct (table_lookup_record _ _ _ Laboratory _ _ Hinc Hload H)
        as (jl & kl & al & Hjl & Hofl & Hkl & ->)
  end.
  repeat match goal with
         | H : keep_fields _ _ !! _ = Some _ |- _ =>
             rewrite keep_fields_lookup_in in H by (simpl; set_solver)
         end.
  exists jt, kt, at_, js, ks, as_, jl, kl, al.
  repeat match goal with
         | H : subscr_path _ _ = Ok _ |- _ => rewrite H
         end.
  rewrite !bind_Ok_l.
  repeat match goal with
         | H : ?t !! ?f = Some _ |- context [?t !! ?f] => rewrite H
         end.
  split; [by split|]. split; [by split|]. split; [by split|].
  split; [vm_compute; reflexivity|]. split; [vm_compute; reflexivity|].
  split; [|split; vm_compute; reflexivity].
  do 2 eexists. split; [reflexivity|]. split; [eassumption|].
  vm_compute. reflexivity.
Qed.

Lemma row_joins_records_witness :
  exists jt kt at_ js ks as_ jl kl al,
    (jt ∈ scenario_included /\ record_of ChemdbType kt at_ jt /\
     chemical_type_id_of (scenario_container JNull) ≫= to_key = Ok kt) /\
    (js ∈ scenario_included /\ record_of Space ks as_ js /\
     chemical_space_id_of (scenario_container JNull) ≫= to_key = Ok ks) /\
    (jl ∈ scenario_included /\ record_of Laboratory kl al jl /\
     lab_id_of (scenario_container JNull) ≫= to_key = Ok kl) /\
    (list_to_map (zip CSV_HEADER (scenario_cells JNull)) : gmap string json)
      !! "CAS Number" = at_ !! "field_chemdb_cas_number" /\
    (list_to_map (zip CSV_HEADER (scenario_cells JNull)) : gmap string json)
      !! "chemical_formula" = at_ !! "field_chemdb_chemical_formula" /\
    (exists code label,
       at_ !! "field_chemdb_physical_state" = Some code /\
       obj_getitem PHYSICAL_STATES code = Ok label /\
       (list_to_map (zip CSV_HEADER (scenario_cells JNull)) : gmap string json)
         !! "Physical State" = Some (JStr label)) /\
    (list_to_map (zip CSV_HEADER (scenario_cells JNull)) : gmap string json)
      !! "Location (space)" = as_ !! "title" /\
    (list_to_map (zip CSV_HEADER (scenario_cells JNull)) : gmap string json)
      !! "Group Name" = al !! "title".
Proof.
  apply (row_joins_records (scenario_document JNull) scenario_included
           scenario_reference (scenario_container JNull)).
  - vm_compute. reflexivity.
  - vm_compute. reflexivity.
  - vm_compute. reflexivity.
Defined.

(** ** Records of other kinds *)

Lemma index_comprehension_skip kind fields pre j post acc :
  record_entry kind fields j = Ok None ->
  index_comprehension kind fields (pre ++ j :: post) acc
  = index_comprehension kind fields (pre ++ post) acc.
Proof.
  intros Hj. revert acc. induction pre as [|j' pre IH]; intros acc.
  - simpl app. by rewrite index_comprehension_cons, Hj.
  - simpl app. rewrite !index_comprehension_cons.
    destruct (record_entry kind fields j') as [e|err]; simpl; [apply IH|done].
Qed.

(** X16: a record whose type tag is none of the three kinds has no effect
    on the builder, whatever else it holds and whatever the other records
    are: with or without it, the builder returns the same index or fails
    with the same error. *)
Theorem foreign_record_ignored data data' pre j post ty :
  included_of data = Ok (pre ++ j :: post)%list ->
  included_of data' = Ok (pre ++ post)%list ->
  py_subscr j (JStr "type") = Ok ty ->
  (forall k, ty <> JStr (kind_tag k)) ->
  load_reference_tables data = load_reference_tables data'.
Proof.
  intros Hinc Hinc' Hty Hkind.
  assert (Hskip : forall k,
            record_entry (kind_tag k) (kind_fields k) j = Ok None).
  { intros k. unfold record_entry. rewrite Hty, bind_Ok_l.
    destruct (py_eq_str ty (kind_tag k)) eqn:E; [|reflexivity].
    apply py_eq_str_true in E. by destruct (Hkind k). }
  rewrite (load_reference_tables_unfold _ _ Hinc),
    (load_reference_tables_unfold _ _ Hinc').
  rewrite (index_comprehension_skip _ _ _ _ _ _ (Hskip ChemdbType)).
  rewrite (index_comprehension_skip _ _ _ _ _ _ (Hskip Space)).
  rewrite (index_comprehension_skip _ _ _ _ _ _ (Hskip Laboratory)).
  reflexivity.
Qed.

Lemma foreign_record_ignored_witness :
  load_reference_tables
    (document [] (chemdb_record "T1" "123-45-6" "L" "H2O"
                  :: foreign_record :: [untyped_record]))
  = load_reference_tables
      (document [scenario_container JNull]
         (chemdb_record "T1" "123-45-6" "L" "H2O" :: [untyped_record])).
Proof.
  apply (foreign_record_ignored _ _ [chemdb_record "T1" "123-45-6" "L" "H2O"]
           foreign_record [untyped_record] (JStr "user--user")).
  - vm_compute. reflexivity.
  - vm_compute. reflexivity.
  - vm_compute. reflexivity.
  - intros [| |]; discriminate.
Defined.
